(** * Value decoding of the Firebird wire protocol driver (xsqlvar.go)

    A shallow embedding of [xsqlvar.go]: the type catalog, the column
    descriptor [xSQLVAR] and the decoder [value] with the helpers it calls
    ([_parseDate], [_parseTime], [_parseTimezone], [parseString], ...),
    followed by the properties of the decoder.

    Conventions.
    - Go's [int] is taken to be 64 bits wide.  Sized integers are kept in [Z]
      and every conversion or operation that can leave the range of its type
      is written with [wrap].
    - Go's [/] and [%] on integers truncate toward zero: they are [Z.quot]
      and [Z.rem], never [Z.div] and [Z.modulo].
    - A byte slice is a [list byte] whose capacity equals its length. *)

From Stdlib Require Import ZArith QArith Qpower Lia List Bool.
From Stdlib Require Import Strings.String Strings.Byte.
From stdpp Require Import base gmap strings list.

Import ListNotations.
Local Open Scope string_scope.
Local Open Scope Z_scope.

(** ** Machine integers *)

Module GoInt.

(** The value of a [w]-bit pattern [u] read as two's complement. *)
Definition to_signed (w u : Z) : Z :=
  if u <? 2 ^ (w - 1) then u else u - 2 ^ w.

(** Conversion of an integer to the signed [w]-bit type ([int16(v)],
    [int32(v)]), and the result of a signed [w]-bit operation whose
    mathematical value is [z]. *)
Definition wrap (w z : Z) : Z := to_signed w (z mod 2 ^ w).

Definition in_range (w z : Z) : Prop := - 2 ^ (w - 1) <= z < 2 ^ (w - 1).

End GoInt.

(** ** Byte buffers and the big-endian readers *)

Definition byte_val (b : byte) : Z := Z.of_N (Byte.to_N b).

(** The unsigned big-endian value of a byte sequence. *)
Definition be_uint (bs : list byte) : Z :=
  fold_left (fun acc b => acc * 256 + byte_val b) bs 0.

(** [binary.Read(buf, binary.BigEndian, &v)] for a [v] of [n] bytes: the
    first [n] bytes of the buffer, or a failure that leaves [v] at zero when
    the buffer is shorter. *)
Definition binary_Read (n : nat) (b : list byte) : option Z :=
  if (length b <? n)%nat then None else Some (be_uint (take n b)).

(** Modelled from the spec: the helpers [bytes_to_bint16], [bytes_to_bint32]
    and [bytes_to_bint64] are called by [xsqlvar.go] but defined elsewhere in
    the package.  The spec has the integer columns read "a big-endian
    two's-complement integer" and the date "a signed 32-bit big-endian"
    number; the call sites use the results as [int16], [int32] and [int64].
    On a buffer of at least the width the result is the two's complement
    reading of its first bytes.  What the helpers do on a shorter buffer is
    not in the sources: they are taken here to ignore the failed read and
    yield the zero value, and the properties of the integer, date and time
    columns are meant for buffers of at least the width. *)
Definition bytes_to_bint (w : nat) (b : list byte) : Z :=
  match binary_Read w b with
  | Some u => GoInt.to_signed (8 * Z.of_nat w) u
  | None => 0
  end.

Definition bytes_to_bint16 : list byte -> Z := bytes_to_bint 2.
Definition bytes_to_bint32 : list byte -> Z := bytes_to_bint 4.
Definition bytes_to_bint64 : list byte -> Z := bytes_to_bint 8.

(** ** The type catalog *)

Definition SQL_TYPE_TEXT : Z := 452.
Definition SQL_TYPE_VARYING : Z := 448.
Definition SQL_TYPE_SHORT : Z := 500.
Definition SQL_TYPE_LONG : Z := 496.
Definition SQL_TYPE_FLOAT : Z := 482.
Definition SQL_TYPE_DOUBLE : Z := 480.
Definition SQL_TYPE_D_FLOAT : Z := 530.
Definition SQL_TYPE_TIMESTAMP : Z := 510.
Definition SQL_TYPE_BLOB : Z := 520.
Definition SQL_TYPE_ARRAY : Z := 540.
Definition SQL_TYPE_QUAD : Z := 550.
Definition SQL_TYPE_TIME : Z := 560.
Definition SQL_TYPE_DATE : Z := 570.
Definition SQL_TYPE_INT64 : Z := 580.
Definition SQL_TYPE_INT128 : Z := 32752.
Definition SQL_TYPE_TIMESTAMP_TZ : Z := 32754.
Definition SQL_TYPE_TIME_TZ : Z := 32756.
Definition SQL_TYPE_DEC_FIXED : Z := 32758.
Definition SQL_TYPE_DEC64 : Z := 32760.
Definition SQL_TYPE_DEC128 : Z := 32762.
Definition SQL_TYPE_BOOLEAN : Z := 32764.
Definition SQL_TYPE_NULL : Z := 32766.

Definition xsqlvarTypeLength : gmap Z Z :=
  list_to_map
    [ (SQL_TYPE_TEXT, -1); (SQL_TYPE_VARYING, -1); (SQL_TYPE_SHORT, 4);
      (SQL_TYPE_LONG, 4); (SQL_TYPE_FLOAT, 4); (SQL_TYPE_TIME, 4);
      (SQL_TYPE_DATE, 4); (SQL_TYPE_DOUBLE, 8); (SQL_TYPE_TIMESTAMP, 8);
      (SQL_TYPE_BLOB, 8); (SQL_TYPE_ARRAY, 8); (SQL_TYPE_QUAD, 8);
      (SQL_TYPE_INT64, 8); (SQL_TYPE_INT128, 16); (SQL_TYPE_TIMESTAMP_TZ, 10);
      (SQL_TYPE_TIME_TZ, 6); (SQL_TYPE_DEC64, 8); (SQL_TYPE_DEC128, 16);
      (SQL_TYPE_DEC_FIXED, 16); (SQL_TYPE_BOOLEAN, 1) ].

Definition xsqlvarTypeDisplayLength : gmap Z Z :=
  list_to_map
    [ (SQL_TYPE_TEXT, -1); (SQL_TYPE_VARYING, -1); (SQL_TYPE_SHORT, 6);
      (SQL_TYPE_LONG, 11); (SQL_TYPE_FLOAT, 17); (SQL_TYPE_TIME, 11);
      (SQL_TYPE_DATE, 10); (SQL_TYPE_DOUBLE, 17); (SQL_TYPE_TIMESTAMP, 22);
      (SQL_TYPE_BLOB, 0); (SQL_TYPE_ARRAY, -1); (SQL_TYPE_QUAD, 20);
      (SQL_TYPE_INT64, 20); (SQL_TYPE_INT128, 20); (SQL_TYPE_TIMESTAMP_TZ, 28);
      (SQL_TYPE_TIME_TZ, 17); (SQL_TYPE_DEC64, 16); (SQL_TYPE_DEC128, 34);
      (SQL_TYPE_DEC_FIXED, 34); (SQL_TYPE_BOOLEAN, 5) ].

Definition xsqlvarTypeName : gmap Z string :=
  list_to_map
    [ (SQL_TYPE_TEXT, "TEXT"); (SQL_TYPE_VARYING, "VARYING");
      (SQL_TYPE_SHORT, "SHORT"); (SQL_TYPE_LONG, "LONG");
      (SQL_TYPE_FLOAT, "FLOAT"); (SQL_TYPE_TIME, "TIME");
      (SQL_TYPE_DATE, "DATE"); (SQL_TYPE_DOUBLE, "DOUBLE");
      (SQL_TYPE_TIMESTAMP, "TIMESTAMP"); (SQL_TYPE_BLOB, "BLOB");
      (SQL_TYPE_ARRAY, "ARRAY"); (SQL_TYPE_QUAD, "QUAD");
      (SQL_TYPE_INT64, "INT64"); (SQL_TYPE_INT128, "INT128");
      (SQL_TYPE_TIMESTAMP_TZ, "TIMESTAMP WITH TIMEZONE");
      (SQL_TYPE_TIME_TZ, "TIME WITH TIMEZONE");
      (SQL_TYPE_DEC64, "DECFLOAT(16)"); (SQL_TYPE_DEC128, "DECFLOAT(34)");
      (SQL_TYPE_DEC_FIXED, "DECFIXED"); (SQL_TYPE_BOOLEAN, "BOOLEAN") ].

(** ** The column descriptor *)

Record xSQLVAR := {
  sqltype : Z;
  sqlscale : Z;
  sqlsubtype : Z;
  sqllen : Z;
  null_ok : bool;
  fieldname : string;
  relname : string;
  ownname : string;
  aliasname : string
}.

(** A map read [m[k]] yields the zero value for an absent key. *)
Definition ioLength (x : xSQLVAR) : Z :=
  if sqltype x =? SQL_TYPE_TEXT then sqllen x
  else default 0 (xsqlvarTypeLength !! sqltype x).

Definition displayLength (x : xSQLVAR) : Z :=
  if sqltype x =? SQL_TYPE_TEXT then sqllen x
  else default 0 (xsqlvarTypeDisplayLength !! sqltype x).

Definition hasPrecisionScale (x : xSQLVAR) : bool :=
  ((sqltype x =? SQL_TYPE_SHORT) || (sqltype x =? SQL_TYPE_LONG)
   || (sqltype x =? SQL_TYPE_QUAD) || (sqltype x =? SQL_TYPE_INT64)
   || (sqltype x =? SQL_TYPE_INT128) || (sqltype x =? SQL_TYPE_DEC64)
   || (sqltype x =? SQL_TYPE_DEC128) || (sqltype x =? SQL_TYPE_DEC_FIXED))
  && negb (sqlscale x =? 0).

Definition typename (x : xSQLVAR) : string :=
  default EmptyString (xsqlvarTypeName !! sqltype x).

(** ** Dates and times *)

Definition _parseDate (raw_value : list byte) : Z * Z * Z :=
  let nday := bytes_to_bint32 raw_value + 678882 in
  let century := (4 * nday - 1) `quot` 146097 in
  let nday := 4 * nday - 1 - 146097 * century in
  let day := nday `quot` 4 in
  let nday := (4 * day + 3) `quot` 1461 in
  let day := 4 * day + 3 - 1461 * nday in
  let day := (day + 4) `quot` 4 in
  let month := (5 * day - 3) `quot` 153 in
  let day := 5 * day - 3 - 153 * month in
  let day := (day + 5) `quot` 5 in
  let year := 100 * century + nday in
  if month <? 10 then (year, month + 3, day)
  else (year + 1, month - 9, day).

Definition _parseTime (raw_value : list byte) : Z * Z * Z * Z :=
  let n := bytes_to_bint32 raw_value in
  let s := n `quot` 10000 in
  let m := s `quot` 60 in
  let h := m `quot` 60 in
  let m := m `rem` 60 in
  let s := s `rem` 60 in
  (h, m, s, (n `rem` 10000) * 100000).

(** ** Decoded values *)

(** [decimal.Decimal] of shopspring/decimal: an integer coefficient and a
    32-bit exponent, standing for [d_value * 10 ^ d_exp]. *)
Record Decimal := { d_value : Z; d_exp : Z }.

(** [decimal.New(value int64, exp int32)]. *)
Definition decimal_New (value exp : Z) : Decimal :=
  {| d_value := value; d_exp := exp |}.

(** The number a [Decimal] stands for. *)
Definition decimal_to_Q (d : Decimal) : Q :=
  (inject_Z (d_value d) * Qpower (inject_Z 10) (d_exp d))%Q.

(** [*time.Location]: the local zone, UTC, or a zone of the host's time zone
    database. *)
Inductive Location :=
| Local
| UTC
| Zone (name : string).

(** The [time.Time] built by [time.Date(year, month, day, hour, min, sec,
    nsec, loc)], kept as the arguments of the call. *)
Record Time := {
  t_year : Z; t_month : Z; t_day : Z;
  t_hour : Z; t_min : Z; t_sec : Z; t_nsec : Z;
  t_loc : Location
}.

(** The dynamic value returned in [v interface{}]. *)
Inductive Value :=
| VNil
| VBytes (b : list byte)
| VString (s : list byte)
| VInt16 (i : Z)
| VInt32 (i : Z)
| VInt64 (i : Z)
| VBigInt (i : Z)
| VDecimal (d : Decimal)
| VFloat32 (bits : Z)
| VFloat64 (bits : Z)
| VBool (b : bool)
| VTime (t : Time).

(** The errors [value] can return: those of [binary.Read]. *)
Inductive error :=
| EOF
| ErrUnexpectedEOF.

(** ** Run-time panics *)

Inductive panic :=
| SliceBoundsOutOfRange
| IndexOutOfRange
| MissingLocation.

Inductive result (A : Type) :=
| Done (a : A)
| Panicked (p : panic).

Arguments Done {A} a.
Arguments Panicked {A} p.

Definition bind {A B} (r : result A) (k : A -> result B) : result B :=
  match r with
  | Done a => k a
  | Panicked p => Panicked p
  end.

Notation "'let*' x ':=' r 'in' k" := (bind r (fun x => k))
  (at level 10, x name, r at level 100, k at level 200).

(** [b[:n]], [b[n:]] and [b[n:m]]. *)
Definition slice_to (n : nat) (b : list byte) : result (list byte) :=
  if (n <=? length b)%nat then Done (take n b) else Panicked SliceBoundsOutOfRange.

Definition slice_from (n : nat) (b : list byte) : result (list byte) :=
  if (n <=? length b)%nat then Done (drop n b) else Panicked SliceBoundsOutOfRange.

Definition slice (n m : nat) (b : list byte) : result (list byte) :=
  if (n <=? m)%nat && (m <=? length b)%nat then Done (take (m - n) (drop n b))
  else Panicked SliceBoundsOutOfRange.

(** [time.Date] panics on a nil location.  The record keeps the arguments
    of the call; [time.Date] itself normalises arguments that are out of
    range (a month 13, an hour 25, negative nanoseconds), so the fields are
    those of the returned time only when they are in range, which
    [normal_time] states. *)
Definition time_Date (year month day hour min sec nsec : Z)
    (loc : option Location) : result Time :=
  match loc with
  | Some l => Done {| t_year := year; t_month := month; t_day := day;
                      t_hour := hour; t_min := min; t_sec := sec;
                      t_nsec := nsec; t_loc := l |}
  | None => Panicked MissingLocation
  end.

(** ** What the decoder takes from outside this file *)

(** The decoders of golang.org/x/text that [parseString] selects. *)
Inductive Encoding :=
| ShiftJIS | EUCJP | EUCKR | Big5 | HZGB2312
| ISO8859_1 | ISO8859_2 | ISO8859_3 | ISO8859_5 | ISO8859_6 | ISO8859_7
| ISO8859_8 | ISO8859_9 | ISO8859_13
| Windows1250 | Windows1251 | Windows1252 | Windows1255 | Windows1256
| Windows1257 | Windows1258
| KOI8R | KOI8U.

Record Externals := {
  (** [int64(math.Pow10(n))] for [n > 18], where the float is beyond the
      range of [int64] and the conversion is left to the implementation. *)
  int64_Pow10_overflow : Z -> Z;
  (** The names [time.LoadLocation] finds in the host's time zone
      database. *)
  zoneinfo : string -> bool;
  (** The package's table from wire identifiers to zone names. *)
  timezoneNameById : gmap Z string;
  (** What [getTimezoneNameByID] does for an identifier that has no entry
      in the table: the name it returns, or the panic it ends with.  Its
      code is not among the sources. *)
  timezone_miss : Z -> result string;
  (** [enc.NewDecoder().Bytes(b)], the error dropped. *)
  decoder_Bytes : Encoding -> list byte -> list byte;
  (** The package's packed-decimal routines. *)
  decimalFixedToDecimal : list byte -> Z -> Decimal;
  decimal64ToDecimal : list byte -> Decimal;
  decimal128ToDecimal : list byte -> Decimal
}.

(** A [switch] on a string with constant case lists. *)
Fixpoint switch_string {A} (tag : string) (cases : list (list string * A))
    (dflt : A) : A :=
  match cases with
  | [] => dflt
  | (labels, body) :: rest =>
      if existsb (String.eqb tag) labels then body
      else switch_string tag rest dflt
  end.

Section Decoder.

Context (E : Externals).

(** [int64(math.Pow10(n))]: [math.Pow10] is the float64 [10^n], exact for
    [0 <= n <= 22], positive and below one for [-323 <= n < 0] and zero
    below that; the conversion truncates toward zero. *)
Definition int64_Pow10 (n : Z) : Z :=
  if n <? 0 then 0
  else if n <=? 18 then 10 ^ n
  else int64_Pow10_overflow E n.

(** [time.LoadLocation], the error dropped: [None] is the nil location. *)
Definition LoadLocation (name : string) : option Location :=
  if (name =? EmptyString)%string || (name =? "UTC")%string then Some UTC
  else if (name =? "Local")%string then Some Local
  else if zoneinfo E name then Some (Zone name)
  else None.

(** Modelled from the spec: [getTimezoneNameByID] is defined elsewhere in
    the package; the spec has it resolve the identifier "through a
    dedicated Timezone ID Table".  For an identifier in the table it
    returns the name; for any other, what it does is left open
    ([timezone_miss]): it returns a plain string, so it cannot report an
    error other than by a panic. *)
Definition getTimezoneNameByID (id : Z) : result string :=
  match timezoneNameById E !! id with
  | Some name => Done name
  | None => timezone_miss E id
  end.

(** The two calls of [fmt.Println] write to the standard output and do
    not bear on the result.  The location is [None] when
    [time.LoadLocation] fails, its error being dropped. *)
Definition _parseTimezone (raw_value : list byte)
  : result (option Location) :=
  let* timezone := getTimezoneNameByID (bytes_to_bint16 raw_value) in
  Done (LoadLocation timezone).

(** The zone of the session: [time.Local], replaced by
    [time.LoadLocation(timezone)], its error dropped, when [timezone] is not
    the empty string. *)
Definition session_location (timezone : string) : option Location :=
  if (timezone =? EmptyString)%string then Some Local else LoadLocation timezone.

Definition parseDate (raw_value : list byte) (timezone : string)
  : result Time :=
  let tz := session_location timezone in
  let '(year, month, day) := _parseDate raw_value in
  time_Date year month day 0 0 0 0 tz.

Definition parseTime (raw_value : list byte) (timezone : string)
  : result Time :=
  let tz := session_location timezone in
  let '(h, m, s, n) := _parseTime raw_value in
  time_Date 0 1 1 h m s n tz.

Definition parseTimestamp (raw_value : list byte) (timezone : string)
  : result Time :=
  let tz := session_location timezone in
  let* d := slice_to 4 raw_value in
  let '(year, month, day) := _parseDate d in
  let* t := slice_from 4 raw_value in
  let '(h, m, s, n) := _parseTime t in
  time_Date year month day h m s n tz.

Definition parseTimeTz (raw_value : list byte) : result Time :=
  let* t := slice_to 4 raw_value in
  let '(h, m, s, n) := _parseTime t in
  let* z := slice_from 4 raw_value in
  let* tz := _parseTimezone z in
  time_Date 0 1 1 h m s n tz.

Definition parseTimestampTz (raw_value : list byte) : result Time :=
  let* d := slice_to 4 raw_value in
  let '(year, month, day) := _parseDate d in
  let* t := slice 4 8 raw_value in
  let '(h, m, s, n) := _parseTime t in
  let* z := slice_from 8 raw_value in
  let* tz := _parseTimezone z in
  time_Date year month day h m s n tz.

(** ** Text *)

Definition decoded (enc : Encoding) (raw_value : list byte) : Value :=
  VString (decoder_Bytes E enc raw_value).

Definition parseString (x : xSQLVAR) (raw_value : list byte)
    (charset : string) : Value :=
  if sqlsubtype x =? 1 then VBytes raw_value
  else if sqlsubtype x =? 0 then
    switch_string charset
      [ (["OCTETS"], VBytes raw_value);
        (["UNICODE_FSS"; "UTF8"], VString raw_value);
        (["SJIS_0208"], decoded ShiftJIS raw_value);
        (["EUCJ_0208"], decoded EUCJP raw_value);
        (["ISO8859_1"], decoded ISO8859_1 raw_value);
        (["ISO8859_2"], decoded ISO8859_2 raw_value);
        (["ISO8859_3"], decoded ISO8859_3 raw_value);
        (["ISO8859_4"], decoded ISO8859_5 raw_value);
        (["ISO8859_5"], decoded ISO8859_5 raw_value);
        (["ISO8859_6"], decoded ISO8859_6 raw_value);
        (["ISO8859_7"], decoded ISO8859_7 raw_value);
        (["ISO8859_8"], decoded ISO8859_8 raw_value);
        (["ISO8859_9"], decoded ISO8859_9 raw_value);
        (["ISO8859_13"], decoded ISO8859_13 raw_value);
        (["KSC_5601"], decoded EUCKR raw_value);
        (["WIN1250"], decoded Windows1250 raw_value);
        (["WIN1251"], decoded Windows1251 raw_value);
        (["WIN1252"], decoded Windows1252 raw_value);
        (["WIN1253"], decoded Windows1252 raw_value);
        (["WIN1254"], decoded Windows1252 raw_value);
        (["BIG_5"], decoded Big5 raw_value);
        (["GB_2312"], decoded HZGB2312 raw_value);
        (["WIN1255"], decoded Windows1255 raw_value);
        (["WIN1256"], decoded Windows1256 raw_value);
        (["WIN1257"], decoded Windows1257 raw_value);
        (["KOI8R"], decoded KOI8R raw_value);
        (["KOI8U"], decoded KOI8U raw_value);
        (["WIN1258"], decoded Windows1258 raw_value) ]
      (VString raw_value)
  else VBytes raw_value.

End Decoder.

(** ** The decoder *)

Section Value.

Context (E : Externals).

(** [binary.Read] of a float of [n] bytes: [v] keeps the zero value and
    [err] is set when the buffer is too short. *)
Definition read_float (n : nat) (mk : Z -> Value) (raw_value : list byte)
  : Value * option error :=
  match binary_Read n raw_value with
  | Some bits => (mk bits, None)
  | None =>
      (mk 0, Some (match raw_value with [] => EOF | _ => ErrUnexpectedEOF end))
  end.

Definition value (x : xSQLVAR) (raw_value : list byte)
    (timezone charset : string) : result (Value * option error) :=
  let ok (v : Value) := Done (v, @None error) in
  let timeof (r : result Time) := let* t := r in ok (VTime t) in
  if sqltype x =? SQL_TYPE_TEXT then
    if sqlsubtype x =? 1 then ok (VBytes raw_value)
    else ok (parseString E x raw_value charset)
  else if sqltype x =? SQL_TYPE_VARYING then
    if sqlsubtype x =? 1 then ok (VBytes raw_value)
    else ok (parseString E x raw_value charset)
  else if sqltype x =? SQL_TYPE_SHORT then
    let i16 := GoInt.wrap 16 (bytes_to_bint32 raw_value) in
    if sqlscale x >? 0 then
      ok (VInt64 (GoInt.wrap 64 (i16 * int64_Pow10 E (sqlscale x))))
    else if sqlscale x <? 0 then
      ok (VDecimal (decimal_New i16 (GoInt.wrap 32 (sqlscale x))))
    else ok (VInt16 i16)
  else if sqltype x =? SQL_TYPE_LONG then
    let i32 := bytes_to_bint32 raw_value in
    if sqlscale x >? 0 then
      ok (VInt64 (GoInt.wrap 64 (i32 * int64_Pow10 E (sqlscale x))))
    else if sqlscale x <? 0 then
      ok (VDecimal (decimal_New i32 (GoInt.wrap 32 (sqlscale x))))
    else ok (VInt32 i32)
  else if sqltype x =? SQL_TYPE_INT64 then
    let i64 := bytes_to_bint64 raw_value in
    if sqlscale x >? 0 then
      ok (VInt64 (GoInt.wrap 64 (i64 * int64_Pow10 E (sqlscale x))))
    else if sqlscale x <? 0 then
      ok (VDecimal (decimal_New i64 (GoInt.wrap 32 (sqlscale x))))
    else ok (VInt64 i64)
  else if sqltype x =? SQL_TYPE_INT128 then
    let* hi := slice_to 8 raw_value in
    let i128 := bytes_to_bint64 hi in
    let i128 := Z.shiftl i128 64 in
    let* lo := slice_from 8 raw_value in
    let low := bytes_to_bint64 lo in
    let i128 := i128 + low in
    let e := int64_Pow10 E (sqlscale x) in
    let i128 := i128 * e in
    ok (VBigInt i128)
  else if sqltype x =? SQL_TYPE_DATE then
    timeof (parseDate E raw_value timezone)
  else if sqltype x =? SQL_TYPE_TIME then
    timeof (parseTime E raw_value timezone)
  else if sqltype x =? SQL_TYPE_TIMESTAMP then
    timeof (parseTimestamp E raw_value timezone)
  else if sqltype x =? SQL_TYPE_TIME_TZ then
    timeof (parseTimeTz E raw_value)
  else if sqltype x =? SQL_TYPE_TIMESTAMP_TZ then
    timeof (parseTimestampTz E raw_value)
  else if sqltype x =? SQL_TYPE_FLOAT then
    Done (read_float 4 VFloat32 raw_value)
  else if sqltype x =? SQL_TYPE_DOUBLE then
    Done (read_float 8 VFloat64 raw_value)
  else if sqltype x =? SQL_TYPE_BOOLEAN then
    match raw_value with
    | b :: _ => ok (VBool (negb (byte_val b =? 0)))
    | [] => Panicked IndexOutOfRange
    end
  else if sqltype x =? SQL_TYPE_BLOB then
    ok (VBytes raw_value)
  else if sqltype x =? SQL_TYPE_DEC_FIXED then
    ok (VDecimal (decimalFixedToDecimal E raw_value (GoInt.wrap 32 (sqlscale x))))
  else if sqltype x =? SQL_TYPE_DEC64 then
    ok (VDecimal (decimal64ToDecimal E raw_value))
  else if sqltype x =? SQL_TYPE_DEC128 then
    ok (VDecimal (decimal128ToDecimal E raw_value))
  else ok VNil.

End Value.

(** ** The scan type *)

(** The [reflect.Type]s that [scantype] returns and that the values of
    [value] have; [TNil] is [reflect.TypeOf(nil)].  [big.Int] and [*big.Int]
    are different types. *)
Inductive GoType :=
| TNil | TString | TBytes | TInt16 | TInt32 | TInt64 | TBigInt | TPtrBigInt
| TDecimal | TFloat32 | TFloat64 | TBool | TTime.

Definition scantype (x : xSQLVAR) : GoType :=
  if sqltype x =? SQL_TYPE_TEXT then TString
  else if sqltype x =? SQL_TYPE_VARYING then TString
  else if sqltype x =? SQL_TYPE_SHORT then
    if negb (sqlscale x =? 0) then TDecimal else TInt16
  else if sqltype x =? SQL_TYPE_LONG then
    if negb (sqlscale x =? 0) then TDecimal else TInt32
  else if sqltype x =? SQL_TYPE_INT64 then
    if negb (sqlscale x =? 0) then TDecimal else TInt64
  else if sqltype x =? SQL_TYPE_INT128 then TBigInt
  else if sqltype x =? SQL_TYPE_DATE then TTime
  else if sqltype x =? SQL_TYPE_TIME then TTime
  else if sqltype x =? SQL_TYPE_TIMESTAMP then TTime
  else if sqltype x =? SQL_TYPE_FLOAT then TFloat32
  else if sqltype x =? SQL_TYPE_DOUBLE then TFloat64
  else if sqltype x =? SQL_TYPE_BOOLEAN then TBool
  else if sqltype x =? SQL_TYPE_BLOB then TBytes
  else if sqltype x =? SQL_TYPE_TIMESTAMP_TZ then TTime
  else if sqltype x =? SQL_TYPE_TIME_TZ then TTime
  else if sqltype x =? SQL_TYPE_DEC64 then TDecimal
  else if sqltype x =? SQL_TYPE_DEC128 then TDecimal
  else if sqltype x =? SQL_TYPE_DEC_FIXED then TDecimal
  else TNil.

(** The dynamic type of a value held in [v interface{}]: [big.NewInt]
    returns a pointer, [decimal.New] a [decimal.Decimal]. *)
Definition dynamic_type (v : Value) : GoType :=
  match v with
  | VNil => TNil
  | VBytes _ => TBytes
  | VString _ => TString
  | VInt16 _ => TInt16
  | VInt32 _ => TInt32
  | VInt64 _ => TInt64
  | VBigInt _ => TPtrBigInt
  | VDecimal _ => TDecimal
  | VFloat32 _ => TFloat32
  | VFloat64 _ => TFloat64
  | VBool _ => TBool
  | VTime _ => TTime
  end.

(** The type codes that have a case in the switch of [value]. *)
Definition value_cases : list Z :=
  [ SQL_TYPE_TEXT; SQL_TYPE_VARYING; SQL_TYPE_SHORT; SQL_TYPE_LONG;
    SQL_TYPE_INT64; SQL_TYPE_INT128; SQL_TYPE_DATE; SQL_TYPE_TIME;
    SQL_TYPE_TIMESTAMP; SQL_TYPE_TIME_TZ; SQL_TYPE_TIMESTAMP_TZ;
    SQL_TYPE_FLOAT; SQL_TYPE_DOUBLE; SQL_TYPE_BOOLEAN; SQL_TYPE_BLOB;
    SQL_TYPE_DEC_FIXED; SQL_TYPE_DEC64; SQL_TYPE_DEC128 ].

(** The charset names that have a case in the switch of [parseString]. *)
Definition charset_cases : list string :=
  [ "OCTETS"; "UNICODE_FSS"; "UTF8"; "SJIS_0208"; "EUCJ_0208"; "ISO8859_1";
    "ISO8859_2"; "ISO8859_3"; "ISO8859_4"; "ISO8859_5"; "ISO8859_6";
    "ISO8859_7"; "ISO8859_8"; "ISO8859_9"; "ISO8859_13"; "KSC_5601";
    "WIN1250"; "WIN1251"; "WIN1252"; "WIN1253"; "WIN1254"; "BIG_5";
    "GB_2312"; "WIN1255"; "WIN1256"; "WIN1257"; "KOI8R"; "KOI8U";
    "WIN1258" ].

(** ** Reference definitions and sample data *)

(** The calendar algorithm as the specification words it, steps 1 to 5 on
    the wire day, every [div] a floor division. *)
Definition spec_parseDate (wireDay : Z) : Z * Z * Z :=
  let nday := wireDay + 678882 in
  let century := (4 * nday - 1) / 146097 in
  let nday := 4 * nday - 1 - 146097 * century in
  let day := nday / 4 in
  let nday := (4 * day + 3) / 1461 in
  let day := 4 * day + 3 - 1461 * nday in
  let day := (day + 4) / 4 in
  let month := (5 * day - 3) / 153 in
  let day := 5 * day - 3 - 153 * month in
  let day := (day + 5) / 5 in
  let year := 100 * century + nday in
  if month <? 10 then (year, month + 3, day)
  else (year + 1, month - 9, day).

(** The time of day as the specification words it, on the count [n] of
    ten-thousandths of a second. *)
Definition spec_parseTime (n : Z) : Z * Z * Z * Z :=
  let totalSeconds := n / 10000 in
  (totalSeconds / 3600, (totalSeconds / 60) mod 60, totalSeconds mod 60,
   (n mod 10000) * 100000).

(** The integer [value] reads for a SHORT, LONG or INT64 column: [i16],
    [i32] and [i64] of the three branches. *)
Definition wire_integer (x : xSQLVAR) (raw_value : list byte) : Z :=
  if sqltype x =? SQL_TYPE_SHORT then GoInt.wrap 16 (bytes_to_bint32 raw_value)
  else if sqltype x =? SQL_TYPE_LONG then bytes_to_bint32 raw_value
  else bytes_to_bint64 raw_value.

(** The order of calendar dates given as (year, month, day). *)
Definition date_lt (p q : Z * Z * Z) : Prop :=
  let '(y1, m1, d1) := p in
  let '(y2, m2, d2) := q in
  y1 < y2 \/ (y1 = y2 /\ (m1 < m2 \/ (m1 = m2 /\ d1 < d2))).

(** The proleptic Gregorian calendar: leap years, the length of a month
    and the day after a date. *)
Definition is_leap (y : Z) : bool :=
  (y mod 4 =? 0) && (negb (y mod 100 =? 0) || (y mod 400 =? 0)).

Definition days_in_month (y m : Z) : Z :=
  if m =? 2 then (if is_leap y then 29 else 28)
  else if (m =? 4) || (m =? 6) || (m =? 9) || (m =? 11) then 30 else 31.

Definition next_day (p : Z * Z * Z) : Z * Z * Z :=
  let '(y, m, d) := p in
  if d <? days_in_month y m then (y, m, d + 1)
  else if m <? 12 then (y, m + 1, 1) else (y + 1, 1, 1).

(** The three divisions of the calendar algorithm taken one at a time: the
    century and the day in it, the year of the century and the day in it
    (years running from March), the month and the day in it (months counted
    from March), and the final shift to January-based months. *)
Definition century_of (n : Z) : Z * Z :=
  let c := (4 * n - 1) / 146097 in (c, (4 * n - 1 - 146097 * c) / 4).

Definition year_of (d1 : Z) : Z * Z :=
  let y := (4 * d1 + 3) / 1461 in (y, (4 * d1 + 3 - 1461 * y + 4) / 4).

Definition month_of (d3 : Z) : Z * Z :=
  let m := (5 * d3 - 3) / 153 in (m, (5 * d3 - 3 - 153 * m + 5) / 5).

Definition civil (c y m d : Z) : Z * Z * Z :=
  if m <? 10 then (100 * c + y, m + 3, d) else (100 * c + y + 1, m - 9, d).

Definition century_days (c : Z) : Z := if c mod 4 =? 3 then 36525 else 36524.

Definition year_days (y : Z) : Z := if y mod 4 =? 3 then 366 else 365.

Definition month_days (m : Z) : Z :=
  if (m =? 1) || (m =? 3) || (m =? 6) || (m =? 8) then 30
  else if m =? 11 then 29 else 31.


(** A buffer from the numeric values of its bytes. *)
Definition bytes (l : list N) : list byte :=
  map (fun n => default x00 (Byte.of_N n)) l.

(** A descriptor with the fields the decoder reads. *)
Definition column (ty scale subtype : Z) : xSQLVAR :=
  {| sqltype := ty; sqlscale := scale; sqlsubtype := subtype; sqllen := 0;
     null_ok := false; fieldname := EmptyString; relname := EmptyString; ownname := EmptyString;
     aliasname := EmptyString |}.

(** An environment for evaluating the decoder on concrete inputs: a host
    whose out-of-range conversion yields the least [int64], with one zone
    installed, a one-entry identifier table read like a Go map (the empty
    name for a missing identifier), and decoders and decimal routines that
    are placeholders. *)
Definition sample_externals : Externals :=
  {| int64_Pow10_overflow := fun _ => - 2 ^ 63;
     zoneinfo := fun name => (name =? "GMT")%string;
     timezoneNameById := {[ 65535 := "GMT" ]};
     timezone_miss := fun _ => Done EmptyString;
     decoder_Bytes := fun _ b => b;
     decimalFixedToDecimal := fun _ scale => decimal_New 0 scale;
     decimal64ToDecimal := fun _ => decimal_New 0 0;
     decimal128ToDecimal := fun _ => decimal_New 0 0 |}.

(** An environment with another behaviour of the lookup on a missing
    identifier. *)
Definition with_timezone_miss (E : Externals) (miss : Z -> result string)
  : Externals :=
  {| int64_Pow10_overflow := int64_Pow10_overflow E;
     zoneinfo := zoneinfo E;
     timezoneNameById := timezoneNameById E;
     timezone_miss := miss;
     decoder_Bytes := decoder_Bytes E;
     decimalFixedToDecimal := decimalFixedToDecimal E;
     decimal64ToDecimal := decimal64ToDecimal E;
     decimal128ToDecimal := decimal128ToDecimal E |}.


(** * Properties *)

(** ** Machine integers and byte readers *)

Module GoIntFacts.
Import GoInt.

Lemma wrap_in_range w z : 0 < w -> in_range w z -> wrap w z = z.
Proof.
  intros Hw [Hlo Hhi]. unfold wrap, to_signed.
  assert (Hp : 2 ^ w = 2 * 2 ^ (w - 1)).
  { replace w with (Z.succ (w - 1)) at 1 by lia. apply Z.pow_succ_r. lia. }
  assert (0 < 2 ^ (w - 1)) by (apply Z.pow_pos_nonneg; lia).
  destruct (Z_lt_le_dec z 0) as [Hneg | Hpos].
  - replace (z mod 2 ^ w) with (z + 2 ^ w).
    + destruct (Z.ltb_spec (z + 2 ^ w) (2 ^ (w - 1))); lia.
    + apply Z.mod_unique with (q := -1); lia.
  - rewrite Z.mod_small by lia.
    destruct (Z.ltb_spec z (2 ^ (w - 1))); lia.
Qed.

Lemma to_signed_small w u : u < 2 ^ (w - 1) -> to_signed w u = u.
Proof.
  intros H. unfold to_signed. destruct (Z.ltb_spec u (2 ^ (w - 1))); lia.
Qed.

End GoIntFacts.

Lemma byte_val_range b : 0 <= byte_val b < 256.
Proof.
  unfold byte_val. pose proof (Byte.to_N_bounded b). lia.
Qed.

Lemma be_uint_snoc bs b : be_uint (bs ++ [b]) = be_uint bs * 256 + byte_val b.
Proof. unfold be_uint. rewrite fold_left_app. reflexivity. Qed.

Lemma be_uint_range bs : 0 <= be_uint bs < 256 ^ Z.of_nat (length bs).
Proof.
  induction bs as [| b bs IH] using rev_ind.
  - change (0 <= 0 < 256 ^ 0). rewrite Z.pow_0_r. lia.
  - rewrite be_uint_snoc, length_app. simpl length.
    replace (Z.of_nat (length bs + 1)) with (Z.succ (Z.of_nat (length bs))) by lia.
    rewrite Z.pow_succ_r by lia.
    pose proof (byte_val_range b). lia.
Qed.

(** On a buffer of exactly four bytes the reader returns the two's
    complement reading of its big-endian value. *)
Lemma bytes_to_bint32_4 (raw : list byte) :
  length raw = 4%nat ->
  bytes_to_bint32 raw = GoInt.to_signed 32 (be_uint raw)
  /\ 0 <= be_uint raw < 2 ^ 32.
Proof.
  intros Hlen. split.
  - unfold bytes_to_bint32, bytes_to_bint, binary_Read. rewrite Hlen. simpl.
    rewrite firstn_all2 by lia. reflexivity.
  - pose proof (be_uint_range raw) as H. rewrite Hlen in H. exact H.
Qed.


(** ** Dates *)

Ltac euclid := Z.to_euclidean_division_equations; lia.

Lemma quot_floor a b : 0 <= a -> 0 < b -> a `quot` b = a / b.
Proof. intros. apply Z.quot_div_nonneg; lia. Qed.

(** From the first day the algorithm supports on, truncating and floor
    division agree at every step. *)
Lemma date_steps_floor (wireDay : Z) :
  -678881 <= wireDay ->
  (let nday := wireDay + 678882 in
   let century := (4 * nday - 1) `quot` 146097 in
   let nday := 4 * nday - 1 - 146097 * century in
   let day := nday `quot` 4 in
   let nday := (4 * day + 3) `quot` 1461 in
   let day := 4 * day + 3 - 1461 * nday in
   let day := (day + 4) `quot` 4 in
   let month := (5 * day - 3) `quot` 153 in
   let day := 5 * day - 3 - 153 * month in
   let day := (day + 5) `quot` 5 in
   let year := 100 * century + nday in
   if month <? 10 then (year, month + 3, day)
   else (year + 1, month - 9, day)) = spec_parseDate wireDay.
Proof.
  intros Hday. unfold spec_parseDate. cbv zeta.
  set (n0 := wireDay + 678882).
  assert (H0 : 0 <= 4 * n0 - 1) by (subst n0; lia).
  rewrite (quot_floor (4 * n0 - 1) 146097) by lia.
  set (c := (4 * n0 - 1) / 146097).
  assert (H1 : 0 <= 4 * n0 - 1 - 146097 * c) by (subst c; euclid).
  rewrite (quot_floor (4 * n0 - 1 - 146097 * c) 4) by lia.
  set (d1 := (4 * n0 - 1 - 146097 * c) / 4).
  assert (H2 : 0 <= d1) by (subst d1; euclid).
  rewrite (quot_floor (4 * d1 + 3) 1461) by lia.
  set (n2 := (4 * d1 + 3) / 1461).
  assert (H3 : 0 <= 4 * d1 + 3 - 1461 * n2) by (subst n2; euclid).
  rewrite (quot_floor (4 * d1 + 3 - 1461 * n2 + 4) 4) by lia.
  set (d3 := (4 * d1 + 3 - 1461 * n2 + 4) / 4).
  assert (H4 : 1 <= d3) by (subst d3; euclid).
  rewrite (quot_floor (5 * d3 - 3) 153) by lia.
  set (m := (5 * d3 - 3) / 153).
  assert (H5 : 0 <= 5 * d3 - 3 - 153 * m) by (subst m; euclid).
  rewrite (quot_floor (5 * d3 - 3 - 153 * m + 5) 5) by lia.
  reflexivity.
Qed.

(** C3, as amended.  For every 4-byte DATE buffer whose signed 32-bit
    big-endian wire day is at least -678881, [_parseDate] returns the year,
    month and day of the specification's calendar algorithm computed with
    floor division.  (Below that day the code's truncating division parts
    from floor division.) *)
Theorem C3_parseDate_floor_from_first_day (raw : list byte) :
  length raw = 4%nat ->
  -678881 <= GoInt.to_signed 32 (be_uint raw) ->
  _parseDate raw = spec_parseDate (GoInt.to_signed 32 (be_uint raw)).
Proof.
  intros Hlen Hday.
  destruct (bytes_to_bint32_4 raw Hlen) as [Hread _].
  unfold _parseDate. rewrite Hread.
  exact (date_steps_floor _ Hday).
Qed.

(** Wire day 0 is 17 November 1858. *)
Lemma C3_parseDate_floor_witness :
  _parseDate (bytes [0; 0; 0; 0]%N) = (1858, 11, 17)
  /\ _parseDate (bytes [0; 0; 0; 0]%N)
     = spec_parseDate (GoInt.to_signed 32 (be_uint (bytes [0; 0; 0; 0]%N))).
Proof.
  split; [reflexivity |].
  apply (C3_parseDate_floor_from_first_day (bytes [0; 0; 0; 0]%N));
    [reflexivity | vm_compute; discriminate].
Defined.

(** C3, as stated, fails: on wire day -678882 (bytes FF F5 A4 1E) the first
    dividend is -1; the code truncates it to century 0 and returns 1 March
    of year 0, floor division gives century -1 and 29 February of year 0. *)
Lemma C3_parseDate_truncates_counterexample :
  let raw := bytes [255; 245; 164; 30]%N in
  length raw = 4%nat
  /\ GoInt.to_signed 32 (be_uint raw) = -678882
  /\ _parseDate raw = (0, 3, 1)
  /\ spec_parseDate (-678882) = (0, 2, 29)
  /\ _parseDate raw <> spec_parseDate (GoInt.to_signed 32 (be_uint raw)).
Proof.
  cbv zeta. repeat split; try reflexivity.
  vm_compute. discriminate.
Qed.


(** ** Times *)

Lemma time_steps_floor (n : Z) :
  0 <= n ->
  (let s := n `quot` 10000 in
   let m := s `quot` 60 in
   let h := m `quot` 60 in
   let m := m `rem` 60 in
   let s := s `rem` 60 in
   (h, m, s, (n `rem` 10000) * 100000)) = spec_parseTime n.
Proof.
  intros Hn. unfold spec_parseTime. cbv zeta.
  rewrite (quot_floor n 10000) by lia.
  rewrite (Z.rem_mod_nonneg n 10000) by lia.
  set (s := n / 10000).
  assert (Hs : 0 <= s) by (subst s; euclid).
  rewrite (quot_floor s 60) by lia.
  rewrite (Z.rem_mod_nonneg s 60) by lia.
  assert (Hm : 0 <= s / 60) by euclid.
  rewrite (quot_floor (s / 60) 60) by lia.
  rewrite (Z.rem_mod_nonneg (s / 60) 60) by lia.
  rewrite Z.div_div by lia.
  reflexivity.
Qed.

(** C4, as amended.  For every 4-byte TIME buffer whose unsigned big-endian
    value [n] is below 2^31, [_parseTime] returns
    hours = (n div 10000) div 3600, minutes = ((n div 10000) div 60) mod 60,
    seconds = (n div 10000) mod 60, nanoseconds = (n mod 10000) * 100000. *)
Theorem C4_parseTime_below_2_31 (raw : list byte) :
  length raw = 4%nat ->
  be_uint raw < 2 ^ 31 ->
  _parseTime raw = spec_parseTime (be_uint raw).
Proof.
  intros Hlen Hsmall.
  destruct (bytes_to_bint32_4 raw Hlen) as [Hread [Hnonneg _]].
  unfold _parseTime. rewrite Hread.
  rewrite GoIntFacts.to_signed_small by exact Hsmall.
  exact (time_steps_floor _ Hnonneg).
Qed.

(** The count 36000000 is one hour past midnight. *)
Lemma C4_parseTime_witness :
  be_uint (bytes [2; 37; 81; 0]%N) = 36000000
  /\ spec_parseTime 36000000 = (1, 0, 0, 0)
  /\ _parseTime (bytes [2; 37; 81; 0]%N)
     = spec_parseTime (be_uint (bytes [2; 37; 81; 0]%N)).
Proof.
  split; [reflexivity | split; [reflexivity |]].
  apply (C4_parseTime_below_2_31 (bytes [2; 37; 81; 0]%N));
    [reflexivity | reflexivity].
Defined.

(** C4, as stated, fails twice.  The count 36000000 (bytes 02 25 51 00) is
    3600 seconds: the decoder and the stated formulas give hour 1, not
    hour 10.  And the buffer is read as a signed number: FF FF FF FF is the
    count 4294967295, for which the formulas give 119:18:16.7295, while the
    decoder reads -1 and returns 0:00:00 with -100000 nanoseconds. *)
Lemma C4_parseTime_counterexample :
  (be_uint (bytes [2; 37; 81; 0]%N) = 36000000
   /\ _parseTime (bytes [2; 37; 81; 0]%N) = (1, 0, 0, 0)
   /\ _parseTime (bytes [2; 37; 81; 0]%N) <> (10, 0, 0, 0))
  /\ (be_uint (bytes [255; 255; 255; 255]%N) = 4294967295
      /\ spec_parseTime 4294967295 = (119, 18, 16, 729500000)
      /\ _parseTime (bytes [255; 255; 255; 255]%N) = (0, 0, 0, -100000)).
Proof.
  repeat split; try reflexivity.
  vm_compute. discriminate.
Qed.

(** ** Text *)

Section TextFacts.

Context (E : Externals).

(** C8.  For a TEXT or VARYING column of subtype 1 (octets), [value]
    returns the input bytes unchanged and no error, whatever the session
    time zone and character set; [parseString] does the same. *)
Theorem C8_octets_passthrough (x : xSQLVAR) (raw : list byte)
    (timezone charset : string) :
  sqltype x = SQL_TYPE_TEXT \/ sqltype x = SQL_TYPE_VARYING ->
  sqlsubtype x = 1 ->
  value E x raw timezone charset = Done (VBytes raw, None)
  /\ parseString E x raw charset = VBytes raw.
Proof.
  intros Hty Hsub. split.
  - unfold value. destruct Hty as [-> | ->]; rewrite Hsub; reflexivity.
  - unfold parseString. rewrite Hsub. reflexivity.
Qed.

(** C9.  For text (subtype 0), the charset name ISO8859_4 selects the
    ISO 8859-5 decoder and the names WIN1253 and WIN1254 select the
    Windows-1252 decoder, so the results coincide with those under
    ISO8859_5 and WIN1252 on every buffer. *)
Theorem C9_shared_decoders (x : xSQLVAR) (raw : list byte) :
  sqlsubtype x = 0 ->
  (parseString E x raw "ISO8859_4" = VString (decoder_Bytes E ISO8859_5 raw)
   /\ parseString E x raw "ISO8859_4" = parseString E x raw "ISO8859_5")
  /\ (parseString E x raw "WIN1253" = VString (decoder_Bytes E Windows1252 raw)
      /\ parseString E x raw "WIN1253" = parseString E x raw "WIN1252")
  /\ (parseString E x raw "WIN1254" = VString (decoder_Bytes E Windows1252 raw)
      /\ parseString E x raw "WIN1254" = parseString E x raw "WIN1252").
Proof.
  intros Hsub. unfold parseString. rewrite Hsub.
  repeat split; reflexivity.
Qed.

(** C10.  For a subtype that is neither 0 nor 1, [parseString] returns the
    raw input bytes, whatever the character set. *)
Theorem C10_other_subtype_raw (x : xSQLVAR) (raw : list byte)
    (charset : string) :
  sqlsubtype x <> 0 ->
  sqlsubtype x <> 1 ->
  parseString E x raw charset = VBytes raw.
Proof.
  intros H0 H1. unfold parseString.
  destruct (Z.eqb_spec (sqlsubtype x) 1) as [Heq | _]; [contradiction |].
  destruct (Z.eqb_spec (sqlsubtype x) 0) as [Heq | _]; [contradiction |].
  reflexivity.
Qed.

End TextFacts.

Lemma C8_octets_passthrough_witness :
  value sample_externals (column SQL_TYPE_VARYING 0 1)
    (bytes [222; 173; 190; 239]%N) EmptyString "WIN1251"
  = Done (VBytes (bytes [222; 173; 190; 239]%N), None)
  /\ parseString sample_externals (column SQL_TYPE_VARYING 0 1)
       (bytes [222; 173; 190; 239]%N) "WIN1251"
     = VBytes (bytes [222; 173; 190; 239]%N).
Proof.
  apply (C8_octets_passthrough sample_externals (column SQL_TYPE_VARYING 0 1));
    [right; reflexivity | reflexivity].
Defined.

Lemma C9_shared_decoders_witness :
  parseString sample_externals (column SQL_TYPE_TEXT 0 0) (bytes [228; 200]%N)
    "ISO8859_4"
  = parseString sample_externals (column SQL_TYPE_TEXT 0 0) (bytes [228; 200]%N)
      "ISO8859_5".
Proof.
  apply (C9_shared_decoders sample_externals (column SQL_TYPE_TEXT 0 0)
           (bytes [228; 200]%N)).
  reflexivity.
Defined.

Lemma C10_other_subtype_raw_witness :
  parseString sample_externals (column SQL_TYPE_TEXT 0 2) (bytes [104; 105]%N)
    "UTF8"
  = VBytes (bytes [104; 105]%N).
Proof.
  apply (C10_other_subtype_raw sample_externals (column SQL_TYPE_TEXT 0 2));
    simpl; lia.
Defined.

(** ** Dispatch *)

Ltac by_catalog Hcat :=
  repeat match goal with
  | |- context [sqltype ?x =? ?c] =>
      destruct (Z.eqb_spec (sqltype x) c) as [Heq | _];
      [ rewrite Heq in Hcat; vm_compute in Hcat; discriminate Hcat | ]
  end.

(** C6, as amended.  For a descriptor whose type code is not in the
    catalog, [value] returns the nil value together with a nil error: no
    case of the switch applies and nothing signals an unsupported type. *)
Theorem C6_uncatalogued_type_returns_nil (E : Externals) (x : xSQLVAR)
    (raw : list byte) (timezone charset : string) :
  xsqlvarTypeLength !! sqltype x = None ->
  value E x raw timezone charset = Done (VNil, None).
Proof.
  intros Hcat. unfold value. by_catalog Hcat. reflexivity.
Qed.

Lemma C6_uncatalogued_type_witness :
  value sample_externals (column SQL_TYPE_NULL 0 0) [] EmptyString "UTF8"
  = Done (VNil, None).
Proof.
  apply (C6_uncatalogued_type_returns_nil sample_externals
           (column SQL_TYPE_NULL 0 0)).
  vm_compute. reflexivity.
Defined.

(** C6, as stated, fails: type code 530 (D_FLOAT) is not in the catalog,
    and decoding an 8-byte buffer of that type returns normally, with the
    nil value and without an error. *)
Lemma C6_unsupported_type_counterexample :
  xsqlvarTypeLength !! SQL_TYPE_D_FLOAT = None
  /\ value sample_externals (column SQL_TYPE_D_FLOAT 0 0)
       (bytes [64; 9; 33; 251; 84; 68; 45; 24]%N) EmptyString "UTF8"
     = Done (VNil, None).
Proof. split; vm_compute; reflexivity. Qed.

(** ** Time zones *)

Section ZoneFacts.

Context (E : Externals).

Lemma value_TIME_TZ (x : xSQLVAR) (raw : list byte) (timezone charset : string) :
  sqltype x = SQL_TYPE_TIME_TZ ->
  value E x raw timezone charset
  = bind (parseTimeTz E raw) (fun t => Done (VTime t, @None error)).
Proof. intros Hty. unfold value. rewrite Hty. reflexivity. Qed.

Lemma value_TIMESTAMP_TZ (x : xSQLVAR) (raw : list byte)
    (timezone charset : string) :
  sqltype x = SQL_TYPE_TIMESTAMP_TZ ->
  value E x raw timezone charset
  = bind (parseTimestampTz E raw) (fun t => Done (VTime t, @None error)).
Proof. intros Hty. unfold value. rewrite Hty. reflexivity. Qed.

(** A zoned value of the catalog's length: what [value] returns is decided
    by the lookup and the loading of the wire zone. *)
Lemma zoned_value_outcome (x : xSQLVAR) (raw : list byte)
    (timezone charset : string) :
  sqltype x = SQL_TYPE_TIME_TZ \/ sqltype x = SQL_TYPE_TIMESTAMP_TZ ->
  xsqlvarTypeLength !! sqltype x = Some (Z.of_nat (length raw)) ->
  exists mk : Location -> Time,
    (forall l, t_loc (mk l) = l)
    /\ value E x raw timezone charset
       = match _parseTimezone E (drop (length raw - 2) raw) with
         | Done (Some l) => Done (VTime (mk l), None)
         | Done None => Panicked MissingLocation
         | Panicked p => Panicked p
         end.
Proof.
  intros Hty Hlen.
  destruct Hty as [Hty | Hty];
    [ rewrite (value_TIME_TZ _ _ _ _ Hty)
    | rewrite (value_TIMESTAMP_TZ _ _ _ _ Hty) ];
    rewrite Hty in *;
    [ change (xsqlvarTypeLength !! SQL_TYPE_TIME_TZ) with (Some 6) in Hlen
    | change (xsqlvarTypeLength !! SQL_TYPE_TIMESTAMP_TZ) with (Some 10) in Hlen ];
    injection Hlen as Hlen.
  - assert (Hl : length raw = 6%nat) by lia. rewrite Hl.
    change (6 - 2)%nat with 4%nat.
    unfold parseTimeTz, slice_to, slice_from. rewrite Hl.
    change (4 <=? 6)%nat with true. cbv iota. unfold bind at 2.
    destruct (_parseTime (take 4 raw)) as [[[h m] s] n].
    unfold bind at 2.
    exists (fun l => {| t_year := 0; t_month := 1; t_day := 1; t_hour := h;
                        t_min := m; t_sec := s; t_nsec := n; t_loc := l |}).
    split; [reflexivity |].
    destruct (_parseTimezone E (drop 4 raw)) as [[l |] | p]; reflexivity.
  - assert (Hl : length raw = 10%nat) by lia. rewrite Hl.
    change (10 - 2)%nat with 8%nat.
    unfold parseTimestampTz, slice_to, slice_from, slice. rewrite Hl.
    change (4 <=? 10)%nat with true. change (8 <=? 10)%nat with true.
    change (4 <=? 8)%nat with true. cbv iota. unfold bind at 2.
    destruct (_parseDate (take 4 raw)) as [[year month] day].
    unfold andb, bind at 2.
    destruct (_parseTime (take (8 - 4) (drop 4 raw))) as [[[h m] s] n].
    unfold bind at 2.
    exists (fun l => {| t_year := year; t_month := month; t_day := day;
                        t_hour := h; t_min := m; t_sec := s; t_nsec := n;
                        t_loc := l |}).
    split; [reflexivity |].
    destruct (_parseTimezone E (drop 8 raw)) as [[l |] | p]; reflexivity.
Qed.

(** C2, as amended.  For a TIME_TZ or TIMESTAMP_TZ value of the catalog's
    length whose 2-byte identifier, the end of the buffer, has no entry in
    the identifier table, [value] never returns an error.  Whenever it
    returns, the error is nil and the value is a time in the location that
    [time.LoadLocation] gives for the name the lookup returned for the
    identifier; and it does return, in that location, whenever the lookup
    returns a name that loads: UTC for the empty name, which is what a read
    of a Go map gives for a missing key. *)
Theorem C2_unresolved_zone_returns_no_error (x : xSQLVAR) (raw : list byte)
    (timezone charset : string) :
  sqltype x = SQL_TYPE_TIME_TZ \/ sqltype x = SQL_TYPE_TIMESTAMP_TZ ->
  xsqlvarTypeLength !! sqltype x = Some (Z.of_nat (length raw)) ->
  timezoneNameById E !! bytes_to_bint16 (drop (length raw - 2) raw) = None ->
  (forall (v : Value) (e : option error),
     value E x raw timezone charset = Done (v, e) ->
     e = None
     /\ exists (t : Time) (name : string),
          v = VTime t
          /\ timezone_miss E (bytes_to_bint16 (drop (length raw - 2) raw))
             = Done name
          /\ LoadLocation E name = Some (t_loc t))
  /\ (forall (name : string) (l : Location),
        timezone_miss E (bytes_to_bint16 (drop (length raw - 2) raw))
        = Done name ->
        LoadLocation E name = Some l ->
        exists t : Time,
          value E x raw timezone charset = Done (VTime t, None)
          /\ t_loc t = l).
Proof.
  intros Hty Hlen Hnone.
  destruct (zoned_value_outcome x raw timezone charset Hty Hlen)
    as (mk & Hloc & Hval).
  unfold _parseTimezone, getTimezoneNameByID in Hval. rewrite Hnone in Hval.
  split.
  - intros v e Hdone. rewrite Hval in Hdone.
    destruct (timezone_miss E (bytes_to_bint16 (drop (length raw - 2) raw)))
      as [name | p]; cbn [bind] in Hdone; [| discriminate Hdone].
    destruct (LoadLocation E name) as [l |] eqn:Hload; [| discriminate Hdone].
    injection Hdone as <- <-. split; [reflexivity |].
    exists (mk l), name. rewrite Hloc. repeat split; reflexivity || assumption.
  - intros name l Hmiss Hload. rewrite Hval, Hmiss. cbn [bind].
    rewrite Hload. eexists. split; [reflexivity | apply Hloc].
Qed.

End ZoneFacts.

(** With a lookup that reads the table like a Go map, the identifier 7,
    which the sample table lacks, gives a time in UTC. *)
Lemma C2_unresolved_zone_witness :
  exists t : Time,
    value sample_externals (column SQL_TYPE_TIMESTAMP_TZ 0 0)
      (bytes [0; 0; 0; 0; 2; 37; 81; 0; 0; 7]%N) EmptyString "UTF8"
    = Done (VTime t, None)
    /\ t_loc t = UTC.
Proof.
  refine (proj2 (C2_unresolved_zone_returns_no_error sample_externals
                   (column SQL_TYPE_TIMESTAMP_TZ 0 0)
                   (bytes [0; 0; 0; 0; 2; 37; 81; 0; 0; 7]%N)
                   EmptyString "UTF8" _ _ _) EmptyString UTC _ _);
    [right; reflexivity | vm_compute; reflexivity | vm_compute; reflexivity
    | reflexivity | reflexivity].
Defined.

(** C2, as stated, fails: identifier 7 has no entry in the sample table,
    and whatever the lookup does for a missing identifier, decoding the
    TIME_TZ buffer 02 25 51 00 00 07 does not return an error. *)
Lemma C2_unknown_timezone_counterexample :
  timezoneNameById sample_externals !! bytes_to_bint16 (bytes [0; 7]%N) = None
  /\ ~ (exists (miss : Z -> result string) (v : Value) (e : error),
          value (with_timezone_miss sample_externals miss)
            (column SQL_TYPE_TIME_TZ 0 0) (bytes [2; 37; 81; 0; 0; 7]%N)
            EmptyString "UTF8"
          = Done (v, Some e)).
Proof.
  split; [vm_compute; reflexivity |].
  intros (miss & v & e & Hdone).
  destruct (zoned_value_outcome (with_timezone_miss sample_externals miss)
              (column SQL_TYPE_TIME_TZ 0 0) (bytes [2; 37; 81; 0; 0; 7]%N)
              EmptyString "UTF8" (or_introl eq_refl) eq_refl)
    as (mk & _ & Hval).
  rewrite Hval in Hdone.
  destruct (_parseTimezone (with_timezone_miss sample_externals miss)
              (drop (length (bytes [2; 37; 81; 0; 0; 7]%N) - 2)
                 (bytes [2; 37; 81; 0; 0; 7]%N))) as [[l |] | p];
    discriminate Hdone.
Qed.

(** ** Scaled integers *)

Lemma int64_Pow10_exact (E : Externals) (n : Z) :
  0 <= n <= 18 -> int64_Pow10 E n = 10 ^ n.
Proof.
  intros [Hlo Hhi]. unfold int64_Pow10.
  destruct (Z.ltb_spec n 0); [lia |].
  destruct (Z.leb_spec n 18); [reflexivity | lia].
Qed.

Lemma int64_Pow10_negative (E : Externals) (n : Z) :
  n < 0 -> int64_Pow10 E n = 0.
Proof.
  intros Hn. unfold int64_Pow10. destruct (Z.ltb_spec n 0); [reflexivity | lia].
Qed.

Lemma int32_scale (n : Z) : - 2 ^ 31 <= n < 2 ^ 31 -> GoInt.wrap 32 n = n.
Proof.
  intros Hn. apply GoIntFacts.wrap_in_range; [lia |].
  unfold GoInt.in_range. change (32 - 1) with 31. exact Hn.
Qed.

(** A nonzero coefficient at exponent 0 and at a negative exponent are
    different numbers. *)
Lemma decimal_exponent_matters (c n : Z) :
  c <> 0 -> n < 0 ->
  ~ (decimal_to_Q (decimal_New c 0)
     == inject_Z c * Qpower (inject_Z 10) n)%Q.
Proof.
  intros Hc Hn Heq. unfold decimal_to_Q, decimal_New in Heq. simpl d_value in Heq.
  simpl d_exp in Heq.
  apply Qmult_inj_l in Heq.
  2:{ intros H0. apply Hc. unfold Qeq in H0. simpl in H0. lia. }
  replace n with (- (- n)) in Heq by lia.
  rewrite Qpower_opp in Heq.
  assert (Hbig : (1 < Qpower (inject_Z 10) (- n))%Q).
  { apply Qpower_1_lt; [reflexivity | lia]. }
  assert (Hpos : (0 < Qpower (inject_Z 10) (- n))%Q).
  { apply Qlt_trans with 1%Q; [reflexivity | exact Hbig]. }
  apply (Qinv_lt_contravar 1 _ eq_refl Hpos) in Hbig.
  apply Qlt_not_eq in Hbig. apply Hbig.
  symmetry. exact Heq.
Qed.

Section ScaleFacts.

Context (E : Externals).

Lemma scale_negative (x : xSQLVAR) :
  sqlscale x < 0 -> (sqlscale x >? 0) = false /\ (sqlscale x <? 0) = true.
Proof.
  intros H. split.
  - destruct (Z.gtb_spec (sqlscale x) 0); [lia | reflexivity].
  - destruct (Z.ltb_spec (sqlscale x) 0); [reflexivity | lia].
Qed.

Lemma scale_positive (x : xSQLVAR) :
  0 < sqlscale x -> (sqlscale x >? 0) = true.
Proof.
  intros H. destruct (Z.gtb_spec (sqlscale x) 0); [reflexivity | lia].
Qed.

(** C5, as amended.  For a SHORT, LONG or INT64 column with
    -2^31 <= scale < 0, [value] returns the decimal with the wire integer
    as coefficient and the scale as exponent, the exact number
    integer * 10^scale, and no error. *)
Theorem C5_negative_scale_exact_decimal (x : xSQLVAR) (raw : list byte)
    (timezone charset : string) :
  sqltype x = SQL_TYPE_SHORT \/ sqltype x = SQL_TYPE_LONG
  \/ sqltype x = SQL_TYPE_INT64 ->
  - 2 ^ 31 <= sqlscale x < 0 ->
  value E x raw timezone charset
  = Done (VDecimal (decimal_New (wire_integer x raw) (sqlscale x)), None)
  /\ (decimal_to_Q (decimal_New (wire_integer x raw) (sqlscale x))
      == inject_Z (wire_integer x raw) * Qpower (inject_Z 10) (sqlscale x))%Q.
Proof.
  intros Hty Hscale. split; [| reflexivity].
  assert (Hw : GoInt.wrap 32 (sqlscale x) = sqlscale x)
    by (apply int32_scale; lia).
  destruct (scale_negative x) as [Hg Hl]; [lia |].
  unfold value, wire_integer.
  destruct Hty as [Hty | [Hty | Hty]]; rewrite Hty; cbv beta iota zeta;
    change (SQL_TYPE_SHORT =? SQL_TYPE_TEXT) with false;
    change (SQL_TYPE_LONG =? SQL_TYPE_TEXT) with false;
    change (SQL_TYPE_INT64 =? SQL_TYPE_TEXT) with false;
    rewrite Hg, Hl, Hw; reflexivity.
Qed.

(** C7, as amended.  For a SHORT, LONG or INT64 column with
    0 < scale <= 18, [value] returns, without error, the 64-bit integer
    that is integer * 10^scale wrapped to 64 bits; it is integer * 10^scale
    itself whenever that product is within the range of [int64]. *)
Theorem C7_positive_scale_int64 (x : xSQLVAR) (raw : list byte)
    (timezone charset : string) :
  sqltype x = SQL_TYPE_SHORT \/ sqltype x = SQL_TYPE_LONG
  \/ sqltype x = SQL_TYPE_INT64 ->
  0 < sqlscale x <= 18 ->
  value E x raw timezone charset
  = Done (VInt64 (GoInt.wrap 64 (wire_integer x raw * 10 ^ sqlscale x)), None)
  /\ (GoInt.in_range 64 (wire_integer x raw * 10 ^ sqlscale x) ->
      value E x raw timezone charset
      = Done (VInt64 (wire_integer x raw * 10 ^ sqlscale x), None)).
Proof.
  intros Hty Hscale.
  assert (Hp : int64_Pow10 E (sqlscale x) = 10 ^ sqlscale x)
    by (apply int64_Pow10_exact; lia).
  assert (Hval : value E x raw timezone charset
    = Done (VInt64 (GoInt.wrap 64 (wire_integer x raw * 10 ^ sqlscale x)), None)).
  { pose proof (scale_positive x (proj1 Hscale)) as Hg.
    unfold value, wire_integer.
    destruct Hty as [Hty | [Hty | Hty]]; rewrite Hty; cbv beta iota zeta;
      change (SQL_TYPE_SHORT =? SQL_TYPE_TEXT) with false;
      change (SQL_TYPE_LONG =? SQL_TYPE_TEXT) with false;
      change (SQL_TYPE_INT64 =? SQL_TYPE_TEXT) with false;
      rewrite Hg, Hp; reflexivity. }
  split; [exact Hval |].
  intros Hfit. rewrite Hval.
  rewrite GoIntFacts.wrap_in_range by (lia || exact Hfit). reflexivity.
Qed.

(** For an INT128 column and a buffer of 16 bytes, the value is built from
    the two signed halves and multiplied by [int64(math.Pow10(scale))]. *)
Lemma value_INT128 (x : xSQLVAR) (raw : list byte) (timezone charset : string) :
  sqltype x = SQL_TYPE_INT128 ->
  length raw = 16%nat ->
  value E x raw timezone charset
  = Done (VBigInt ((Z.shiftl (bytes_to_bint64 (take 8 raw)) 64
                    + bytes_to_bint64 (drop 8 raw))
                   * int64_Pow10 E (sqlscale x)), None).
Proof.
  intros Hty Hlen. unfold value. rewrite Hty.
  change (SQL_TYPE_INT128 =? SQL_TYPE_TEXT) with false. cbv beta iota zeta.
  change (SQL_TYPE_INT128 =? SQL_TYPE_VARYING) with false.
  change (SQL_TYPE_INT128 =? SQL_TYPE_SHORT) with false.
  change (SQL_TYPE_INT128 =? SQL_TYPE_LONG) with false.
  change (SQL_TYPE_INT128 =? SQL_TYPE_INT64) with false.
  change (SQL_TYPE_INT128 =? SQL_TYPE_INT128) with true.
  cbv iota. unfold slice_to, slice_from. rewrite Hlen.
  reflexivity.
Qed.

(** With a scale from 0 to 18 the INT128 decoder multiplies by 10^scale. *)
Lemma value_INT128_scale_0_18 (x : xSQLVAR) (raw : list byte)
    (timezone charset : string) :
  sqltype x = SQL_TYPE_INT128 ->
  length raw = 16%nat ->
  0 <= sqlscale x <= 18 ->
  value E x raw timezone charset
  = Done (VBigInt ((Z.shiftl (bytes_to_bint64 (take 8 raw)) 64
                    + bytes_to_bint64 (drop 8 raw))
                   * 10 ^ sqlscale x), None).
Proof.
  intros Hty Hlen Hscale.
  rewrite (value_INT128 _ _ _ _ Hty Hlen), int64_Pow10_exact by exact Hscale.
  reflexivity.
Qed.

(** C1, the behaviour of the code against the claim.  For an INT128 column
    with a negative scale, the multiplier [int64(math.Pow10(scale))] is 0,
    so every 16-byte buffer decodes to the big integer 0 instead of
    ((high << 64) + low) * 10^scale. *)
Theorem C1_int128_negative_scale_is_zero (x : xSQLVAR) (raw : list byte)
    (timezone charset : string) :
  sqltype x = SQL_TYPE_INT128 ->
  length raw = 16%nat ->
  sqlscale x < 0 ->
  value E x raw timezone charset = Done (VBigInt 0, None).
Proof.
  intros Hty Hlen Hscale.
  rewrite (value_INT128 _ _ _ _ Hty Hlen), int64_Pow10_negative by exact Hscale.
  rewrite Z.mul_0_r. reflexivity.
Qed.

End ScaleFacts.

(** The raw integer 12345 at scale -2 is the decimal 123.45, for each of the
    three integer types. *)
Lemma C5_negative_scale_witness :
  (value sample_externals (column SQL_TYPE_SHORT (-2) 0)
     (bytes [0; 0; 48; 57]%N) EmptyString "UTF8"
   = Done (VDecimal (decimal_New 12345 (-2)), None)
   /\ value sample_externals (column SQL_TYPE_LONG (-2) 0)
        (bytes [0; 0; 48; 57]%N) EmptyString "UTF8"
      = Done (VDecimal (decimal_New 12345 (-2)), None)
   /\ value sample_externals (column SQL_TYPE_INT64 (-2) 0)
        (bytes [0; 0; 0; 0; 0; 0; 48; 57]%N) EmptyString "UTF8"
      = Done (VDecimal (decimal_New 12345 (-2)), None))
  /\ (decimal_to_Q (decimal_New 12345 (-2)) == 12345 # 100)%Q.
Proof.
  split; [split; [| split] | reflexivity].
  - apply (C5_negative_scale_exact_decimal sample_externals
             (column SQL_TYPE_SHORT (-2) 0) (bytes [0; 0; 48; 57]%N));
      [left; reflexivity | simpl; lia].
  - apply (C5_negative_scale_exact_decimal sample_externals
             (column SQL_TYPE_LONG (-2) 0) (bytes [0; 0; 48; 57]%N));
      [right; left; reflexivity | simpl; lia].
  - apply (C5_negative_scale_exact_decimal sample_externals
             (column SQL_TYPE_INT64 (-2) 0)
             (bytes [0; 0; 0; 0; 0; 0; 48; 57]%N));
      [right; right; reflexivity | simpl; lia].
Defined.

(** C5, as stated, fails: the scale is an [int] and [decimal.New] takes an
    [int32].  With scale -4294967296 the exponent wraps to 0 and the raw
    integer 12345 decodes to the decimal 12345, which is not
    12345 * 10^(-4294967296). *)
Lemma C5_scale_beyond_int32_counterexample :
  wire_integer (column SQL_TYPE_SHORT (-4294967296) 0) (bytes [0; 0; 48; 57]%N)
  = 12345
  /\ value sample_externals (column SQL_TYPE_SHORT (-4294967296) 0)
       (bytes [0; 0; 48; 57]%N) EmptyString "UTF8"
     = Done (VDecimal (decimal_New 12345 0), None)
  /\ ~ (decimal_to_Q (decimal_New 12345 0)
        == inject_Z 12345 * Qpower (inject_Z 10) (-4294967296))%Q.
Proof.
  split; [vm_compute; reflexivity | split; [vm_compute; reflexivity |]].
  apply decimal_exponent_matters; lia.
Qed.

(** A SHORT with scale 2 and raw integer 5 is the integer 500. *)
Lemma C7_positive_scale_witness :
  value sample_externals (column SQL_TYPE_SHORT 2 0) (bytes [0; 0; 0; 5]%N)
    EmptyString "UTF8"
  = Done (VInt64 500, None).
Proof.
  apply (C7_positive_scale_int64 sample_externals (column SQL_TYPE_SHORT 2 0)
           (bytes [0; 0; 0; 5]%N) EmptyString "UTF8");
    [left; reflexivity | simpl; lia |].
  vm_compute. split; [discriminate | reflexivity].
Defined.

(** C7, as stated, fails: a SHORT with scale 18 and raw integer 10 stands
    for 10^19, which no 64-bit integer equals; the product wraps and the
    decoder returns -8446744073709551616. *)
Lemma C7_int64_overflow_counterexample :
  wire_integer (column SQL_TYPE_SHORT 18 0) (bytes [0; 0; 0; 10]%N)
    * 10 ^ sqlscale (column SQL_TYPE_SHORT 18 0)
  = 10000000000000000000
  /\ value sample_externals (column SQL_TYPE_SHORT 18 0)
       (bytes [0; 0; 0; 10]%N) EmptyString "UTF8"
     = Done (VInt64 (-8446744073709551616), None)
  /\ value sample_externals (column SQL_TYPE_SHORT 18 0)
       (bytes [0; 0; 0; 10]%N) EmptyString "UTF8"
     <> Done (VInt64 10000000000000000000, None).
Proof.
  split; [vm_compute; reflexivity | split; [vm_compute; reflexivity |]].
  vm_compute. discriminate.
Qed.

(** The failing input of C1: an INT128 column of scale -2 and the 16-byte
    buffer of the integer 12345 decode to 0. *)
Lemma C1_int128_negative_scale_witness :
  Z.shiftl (bytes_to_bint64 (bytes [0; 0; 0; 0; 0; 0; 0; 0]%N)) 64
    + bytes_to_bint64 (bytes [0; 0; 0; 0; 0; 0; 48; 57]%N) = 12345
  /\ value sample_externals (column SQL_TYPE_INT128 (-2) 0)
       (bytes [0; 0; 0; 0; 0; 0; 0; 0; 0; 0; 0; 0; 0; 0; 48; 57]%N) EmptyString "UTF8"
     = Done (VBigInt 0, None).
Proof.
  split; [reflexivity |].
  apply (C1_int128_negative_scale_is_zero sample_externals
           (column SQL_TYPE_INT128 (-2) 0));
    [reflexivity | reflexivity | simpl; lia].
Defined.

(** * Further properties of the decoder *)

(** ** The fields of a time *)

(** X1.  Whatever the buffer, the four fields [_parseTime] returns
    recombine to the count it read:
    ((h * 60 + m) * 60 + s) * 10000 + nsec / 100000 = n. *)
Theorem X1_parseTime_recombines (raw : list byte) :
  let '(h, m, s, nsec) := _parseTime raw in
  ((h * 60 + m) * 60 + s) * 10000 + nsec `quot` 100000 = bytes_to_bint32 raw
  /\ nsec `rem` 100000 = 0.
Proof.
  unfold _parseTime. set (n := bytes_to_bint32 raw). cbv zeta.
  split; euclid.
Qed.

(** X2.  For a 4-byte buffer whose count is a time of day
    (n < 864000000), the fields are in their clock ranges. *)
Theorem X2_parseTime_clock_ranges (raw : list byte) :
  length raw = 4%nat ->
  be_uint raw < 864000000 ->
  let '(h, m, s, nsec) := _parseTime raw in
  0 <= h < 24 /\ 0 <= m < 60 /\ 0 <= s < 60 /\ 0 <= nsec < 1000000000.
Proof.
  intros Hlen Hday.
  destruct (bytes_to_bint32_4 raw Hlen) as [Hread [Hnonneg _]].
  unfold _parseTime. rewrite Hread.
  rewrite GoIntFacts.to_signed_small by lia.
  set (n := be_uint raw) in *. cbv zeta.
  repeat split; euclid.
Qed.

Lemma X2_parseTime_clock_ranges_witness :
  let '(h, m, s, nsec) := _parseTime (bytes [51; 126; 243; 255]%N) in
  0 <= h < 24 /\ 0 <= m < 60 /\ 0 <= s < 60 /\ 0 <= nsec < 1000000000.
Proof.
  apply (X2_parseTime_clock_ranges (bytes [51; 126; 243; 255]%N));
    [reflexivity | reflexivity].
Defined.

(** ** The fields of a date *)

Ltac name_months :=
  repeat match goal with
  | |- context [if ?m <? 10 then _ else _] =>
      let H := fresh "Hm" in destruct (Z.ltb_spec m 10) as [H | H]
  end.

Lemma spec_date_increasing (a b : Z) :
  -678881 <= a -> a < b ->
  date_lt (spec_parseDate a) (spec_parseDate b).
Proof.
  intros Ha Hab. unfold spec_parseDate. cbv zeta.
  name_months; unfold date_lt; euclid.
Qed.

Lemma parseDate_by_floor (raw : list byte) :
  length raw = 4%nat ->
  -678881 <= GoInt.to_signed 32 (be_uint raw) ->
  _parseDate raw = spec_parseDate (GoInt.to_signed 32 (be_uint raw)).
Proof.
  intros Hlen Hday.
  destruct (bytes_to_bint32_4 raw Hlen) as [Hread _].
  unfold _parseDate. rewrite Hread.
  exact (date_steps_floor _ Hday).
Qed.

(** *** The calendar, one division at a time *)

Lemma spec_parseDate_stages (w : Z) :
  spec_parseDate w =
  let '(c, d1) := century_of (w + 678882) in
  let '(y, d3) := year_of d1 in
  let '(m, d) := month_of d3 in
  civil c y m d.
Proof. reflexivity. Qed.

Lemma century_step (n : Z) :
  1 <= n ->
  let '(c, d1) := century_of n in
  0 <= c /\ 0 <= d1 < century_days c
  /\ century_of (n + 1)
     = if d1 + 1 <? century_days c then (c, d1 + 1) else (c + 1, 0).
Proof.
  intros Hn. unfold century_of, century_days. cbv zeta.
  set (c := (4 * n - 1) / 146097).
  set (c' := (4 * (n + 1) - 1) / 146097).
  set (d := (4 * n - 1 - 146097 * c) / 4).
  set (d' := (4 * (n + 1) - 1 - 146097 * c') / 4).
  destruct (Z.eqb_spec (c mod 4) 3);
    (split; [subst c; euclid |]); (split; [subst c d; euclid |]);
    match goal with |- context [?a <? ?b] => destruct (Z.ltb_spec a b) end;
    f_equal; subst c c' d d'; euclid.
Qed.

Lemma year_step (d1 : Z) :
  0 <= d1 ->
  let '(y, d3) := year_of d1 in
  0 <= y /\ 1 <= d3 <= year_days y
  /\ 4 * d3 - 4 <= 4 * d1 + 3 - 1461 * y < 4 * d3
  /\ year_of (d1 + 1)
     = if d3 + 1 <=? year_days y then (y, d3 + 1) else (y + 1, 1).
Proof.
  intros Hd. unfold year_of, year_days. cbv zeta.
  set (y := (4 * d1 + 3) / 1461).
  set (y' := (4 * (d1 + 1) + 3) / 1461).
  set (d := (4 * d1 + 3 - 1461 * y + 4) / 4).
  set (d' := (4 * (d1 + 1) + 3 - 1461 * y' + 4) / 4).
  destruct (Z.eqb_spec (y mod 4) 3);
    (split; [subst y; euclid |]); (split; [subst y d; euclid |]);
    (split; [subst y d; euclid |]);
    match goal with |- context [?a <=? ?b] => destruct (Z.leb_spec a b) end;
    f_equal; subst y y' d d'; euclid.
Qed.

Ltac split_tests :=
  repeat (match goal with
          | |- context [?a =? ?b] => destruct (Z.eqb_spec a b)
          | |- context [?a <=? ?b] => destruct (Z.leb_spec a b)
          | |- context [?a <? ?b] => destruct (Z.ltb_spec a b)
          end; cbn [andb orb negb]; cbv beta iota).

Lemma month_step (d3 : Z) :
  1 <= d3 <= 366 ->
  let '(m, d) := month_of d3 in
  0 <= m <= 11 /\ 1 <= d <= month_days m
  /\ (d3 = 365 -> m = 11 /\ d = 28) /\ (d3 = 366 -> m = 11 /\ d = 29)
  /\ (m = 11 -> d3 = 337 + d)
  /\ (d3 < 366 ->
      month_of (d3 + 1)
      = if d + 1 <=? month_days m then (m, d + 1) else (m + 1, 1)).
Proof.
  intros Hd. unfold month_of. cbv zeta.
  set (m := (5 * d3 - 3) / 153).
  set (m' := (5 * (d3 + 1) - 3) / 153).
  set (d := (5 * d3 - 3 - 153 * m + 5) / 5).
  set (d' := (5 * (d3 + 1) - 3 - 153 * m' + 5) / 5).
  assert (Hm : 153 * m <= 5 * d3 - 3 < 153 * m + 153) by (subst m; euclid).
  assert (Hm' : 153 * m' <= 5 * (d3 + 1) - 3 < 153 * m' + 153)
    by (subst m'; euclid).
  assert (Hd3 : 5 * d <= 5 * d3 - 3 - 153 * m + 5 < 5 * d + 5)
    by (subst d; euclid).
  assert (Hd' : 5 * d' <= 5 * (d3 + 1) - 3 - 153 * m' + 5 < 5 * d' + 5)
    by (subst d'; euclid).
  clearbody m m' d d'.
  unfold month_days.
  assert (m = 0 \/ m = 1 \/ m = 2 \/ m = 3 \/ m = 4 \/ m = 5 \/ m = 6 \/ m = 7
          \/ m = 8 \/ m = 9 \/ m = 10 \/ m = 11) as Hcases by lia.
  repeat (destruct Hcases as [Hm0 | Hcases]; [subst m; cbn [Z.eqb orb Pos.eqb] |]).
  all: try (subst m; cbn [Z.eqb orb Pos.eqb]).
  all: repeat split; try lia.
  all: intros Hlt; split_tests; f_equal; lia.
Qed.

Lemma is_leap_march_year (c y : Z) :
  0 <= y <= 99 ->
  is_leap (100 * c + y + 1)
  = (y mod 4 =? 3) && (negb (y =? 99) || (c mod 4 =? 3)).
Proof.
  intros Hy. unfold is_leap. split_tests; first [reflexivity | euclid].
Qed.

Lemma days_in_month_from_march (year m : Z) :
  0 <= m < 10 -> days_in_month year (m + 3) = month_days m.
Proof.
  intros Hm.
  assert (m = 0 \/ m = 1 \/ m = 2 \/ m = 3 \/ m = 4 \/ m = 5 \/ m = 6 \/ m = 7
          \/ m = 8 \/ m = 9) as Hcases by lia.
  destruct Hcases as [-> | [-> | [-> | [-> | [-> | [-> | [-> | [-> | [->
    | ->]]]]]]]]]; reflexivity.
Qed.

Lemma next_day_civil (c y m d : Z) (leap : bool) :
  0 <= m <= 11 ->
  1 <= d <= month_days m ->
  is_leap (100 * c + y + 1) = leap ->
  (m = 11 -> d = 29 -> leap = true) ->
  next_day (civil c y m d)
  = if (d + 1 <=? month_days m) && negb ((m =? 11) && (d =? 28) && negb leap)
    then civil c y m (d + 1)
    else if m =? 11 then (100 * c + y + 1, 3, 1) else civil c y (m + 1) 1.
Proof.
  intros Hm Hd Hleap Hfeb. unfold civil, next_day.
  destruct (Z.ltb_spec m 10) as [Hlow | Hhigh].
  - rewrite days_in_month_from_march by lia.
    replace (m =? 11) with false by (symmetry; apply Z.eqb_neq; lia).
    cbn [andb negb]. rewrite andb_true_r.
    destruct (Z.leb_spec (d + 1) (month_days m));
      destruct (Z.ltb_spec d (month_days m)); try lia; [reflexivity |].
    destruct (Z.ltb_spec (m + 1) 10); destruct (Z.ltb_spec (m + 3) 12);
      try lia; f_equal; f_equal; lia.
  - assert (m = 10 \/ m = 11) as [-> | ->] by lia.
    + change (month_days 10) with 31 in *. change (days_in_month _ (10 - 9)) with 31.
      cbn [Z.eqb Pos.eqb andb negb]. rewrite andb_true_r.
      destruct (Z.leb_spec (d + 1) 31); destruct (Z.ltb_spec d 31); try lia;
        reflexivity.
    + change (month_days 11) with 29 in *.
      change (days_in_month (100 * c + y + 1) (11 - 9))
        with (if is_leap (100 * c + y + 1) then 29 else 28).
      rewrite Hleap. cbn [Z.eqb Pos.eqb andb].
      destruct leap; cbn [negb andb];
        destruct (Z.leb_spec (d + 1) 29); destruct (Z.eqb_spec d 28);
        cbn [negb andb];
        repeat match goal with
        | |- context [?a <? ?b] => destruct (Z.ltb_spec a b)
        end; try lia; try reflexivity.
      all: specialize (Hfeb eq_refl); try (assert (d = 29) by lia); try (discriminate (Hfeb ltac:(lia))).
Qed.

Lemma spec_date_succ (w : Z) :
  -678881 <= w ->
  spec_parseDate (w + 1) = next_day (spec_parseDate w).
Proof.
  intros Hw. rewrite !spec_parseDate_stages.
  replace (w + 1 + 678882) with (w + 678882 + 1) by lia.
  set (n := w + 678882). assert (Hn : 1 <= n) by (subst n; lia). clearbody n.
  pose proof (century_step n Hn) as H1.
  destruct (century_of n) as [c d1]. destruct H1 as (Hc & Hd1 & ->).
  pose proof (year_step d1 (proj1 Hd1)) as H2.
  destruct (year_of d1) as [y d3].
  destruct H2 as (Hy & Hd3 & Hlin & Hstep2).
  assert (Hd3' : 1 <= d3 <= 366)
    by (unfold year_days in Hd3; destruct (y mod 4 =? 3); lia).
  pose proof (month_step d3 Hd3') as H3.
  destruct (month_of d3) as [m d].
  destruct H3 as (Hm & Hd & H365 & H366 & Hfeb & Hstep3).
  assert (Hy99 : 0 <= y <= 99)
    by (unfold century_days in Hd1; destruct (c mod 4 =? 3); lia).
  unfold century_days, year_days in *.
  assert (Hleap : m = 11 -> d = 29 ->
                  (y mod 4 =? 3) && (negb (y =? 99) || (c mod 4 =? 3)) = true).
  { intros -> ->. specialize (Hfeb eq_refl).
    destruct (Z.eqb_spec (y mod 4) 3); destruct (Z.eqb_spec y 99);
      destruct (Z.eqb_spec (c mod 4) 3); cbn; try reflexivity; lia. }
  rewrite (next_day_civil c y m d _ Hm Hd (is_leap_march_year c y Hy99) Hleap).
  clear Hleap.
  assert (Hmd : m = 11 -> month_days m = 29) by (intros ->; reflexivity).
  destruct (Z.eqb_spec (c mod 4) 3) as [Hc4 | Hc4];
    destruct (Z.eqb_spec (y mod 4) 3) as [Hy4 | Hy4];
    cbn [andb orb negb].
  all: match goal with
       | |- context [if ?a <? ?b then _ else (_, 0)] =>
           destruct (Z.ltb_spec a b) as [Hin | Hout]
       end.
  all: try (rewrite Hstep2;
            match goal with
            | |- context [if ?a <=? ?b then _ else (_, 1)] =>
                destruct (Z.leb_spec a b) as [Hyin | Hyout]
            end).
  all: try (rewrite Hstep3 by lia;
            match goal with
            | |- context [if ?a <=? ?b then _ else (_, 1)] =>
                destruct (Z.leb_spec a b) as [Hmin | Hmout]
            end).
  all: try change (year_of 0) with (0, 1).
  all: cbv beta iota.
  all: try change (month_of 1) with (0, 1).
  all: cbv beta iota.
  all: try match goal with
       | |- context [civil ?c' ?y' 0 1] =>
           change (civil c' y' 0 1) with (100 * c' + y', 3, 1)
       end.
  all: clear Hstep2 Hstep3.
  all: split_tests;
    first [ reflexivity | euclid
          | repeat (match goal with
                    | |- (_, _) = (_, _) => apply f_equal2
                    end); euclid ].
Qed.

Lemma spec_date_valid (w : Z) :
  -678881 <= w ->
  let '(y, m, d) := spec_parseDate w in
  1 <= m <= 12 /\ 1 <= d <= days_in_month y m.
Proof.
  intros Hw. rewrite spec_parseDate_stages.
  set (n := w + 678882). assert (Hn : 1 <= n) by (subst n; lia). clearbody n.
  pose proof (century_step n Hn) as H1.
  destruct (century_of n) as [c d1]. destruct H1 as (Hc & Hd1 & _).
  pose proof (year_step d1 (proj1 Hd1)) as H2.
  destruct (year_of d1) as [y d3].
  destruct H2 as (Hy & Hd3 & Hlin & _).
  assert (Hd3' : 1 <= d3 <= 366)
    by (unfold year_days in Hd3; destruct (y mod 4 =? 3); lia).
  pose proof (month_step d3 Hd3') as H3.
  destruct (month_of d3) as [m d].
  destruct H3 as (Hm & Hd & _ & _ & Hfeb & _).
  assert (Hy99 : 0 <= y <= 99)
    by (unfold century_days in Hd1; destruct (c mod 4 =? 3); lia).
  unfold century_days, year_days in *.
  unfold civil. destruct (Z.ltb_spec m 10) as [Hlow | Hhigh].
  - rewrite days_in_month_from_march by lia. lia.
  - assert (m = 10 \/ m = 11) as [-> | ->] by lia.
    + change (days_in_month _ (10 - 9)) with 31. change (month_days 10) with 31 in Hd.
      lia.
    + change (days_in_month (100 * c + y + 1) (11 - 9))
        with (if is_leap (100 * c + y + 1) then 29 else 28).
      change (month_days 11) with 29 in Hd. specialize (Hfeb eq_refl).
      rewrite (is_leap_march_year c y Hy99).
      destruct (Z.eqb_spec (y mod 4) 3); destruct (Z.eqb_spec y 99);
        destruct (Z.eqb_spec (c mod 4) 3); cbn [andb orb negb]; lia.
Qed.

(** X3.  From wire day -678881 on, [_parseDate] returns a date of the
    Gregorian calendar: a month from 1 to 12 and a day from 1 to the length
    of that month in that year, 29 February only in leap years. *)
Theorem X3_parseDate_valid_date (raw : list byte) :
  length raw = 4%nat ->
  -678881 <= GoInt.to_signed 32 (be_uint raw) ->
  let '(y, m, d) := _parseDate raw in
  1 <= m <= 12 /\ 1 <= d <= days_in_month y m.
Proof.
  intros Hlen Hday.
  rewrite (parseDate_by_floor raw Hlen Hday).
  exact (spec_date_valid _ Hday).
Qed.

Lemma X3_parseDate_valid_date_witness :
  let '(y, m, d) := _parseDate (bytes [0; 0; 234; 96]%N) in
  1 <= m <= 12 /\ 1 <= d <= days_in_month y m.
Proof.
  apply (X3_parseDate_valid_date (bytes [0; 0; 234; 96]%N));
    [reflexivity | vm_compute; discriminate].
Defined.

(** X4.  From wire day -678881 on, [_parseDate] is strictly increasing: a
    later wire day decodes to a later (year, month, day), so two different
    wire days never decode to the same date. *)
Theorem X4_parseDate_increasing (raw1 raw2 : list byte) :
  length raw1 = 4%nat ->
  length raw2 = 4%nat ->
  -678881 <= GoInt.to_signed 32 (be_uint raw1) ->
  GoInt.to_signed 32 (be_uint raw1) < GoInt.to_signed 32 (be_uint raw2) ->
  date_lt (_parseDate raw1) (_parseDate raw2).
Proof.
  intros Hlen1 Hlen2 Hday Hlt.
  rewrite (parseDate_by_floor raw1 Hlen1 Hday).
  rewrite (parseDate_by_floor raw2 Hlen2) by lia.
  exact (spec_date_increasing _ _ Hday Hlt).
Qed.

(** 31 December 1999 and 14 January 2060. *)
Lemma X4_parseDate_increasing_witness :
  date_lt (_parseDate (bytes [0; 0; 201; 87]%N))
    (_parseDate (bytes [0; 1; 31; 0]%N)).
Proof.
  apply (X4_parseDate_increasing (bytes [0; 0; 201; 87]%N)
           (bytes [0; 1; 31; 0]%N));
    [reflexivity | reflexivity | vm_compute; discriminate | reflexivity].
Defined.

(** X5.  From wire day -678881 on, the next wire day decodes to the next
    day of the Gregorian calendar: the day after within the month, the
    first of the next month after the last day of a month, 1 January of the
    next year after 31 December. *)
Theorem X5_parseDate_next_day (raw1 raw2 : list byte) :
  length raw1 = 4%nat ->
  length raw2 = 4%nat ->
  -678881 <= GoInt.to_signed 32 (be_uint raw1) ->
  GoInt.to_signed 32 (be_uint raw2) = GoInt.to_signed 32 (be_uint raw1) + 1 ->
  _parseDate raw2 = next_day (_parseDate raw1).
Proof.
  intros Hlen1 Hlen2 Hday Hnext.
  rewrite (parseDate_by_floor raw1 Hlen1 Hday).
  rewrite (parseDate_by_floor raw2 Hlen2) by lia.
  rewrite Hnext. exact (spec_date_succ _ Hday).
Qed.

(** 28 February 1900, not a leap year, is followed by 1 March; wire day 0
    is 17 November 1858. *)
Lemma X5_parseDate_next_day_witness :
  _parseDate (bytes [0; 0; 0; 0]%N) = (1858, 11, 17)
  /\ _parseDate (bytes [0; 0; 58; 230]%N) = (1900, 2, 28)
  /\ _parseDate (bytes [0; 0; 58; 231]%N) = (1900, 3, 1)
  /\ _parseDate (bytes [0; 0; 58; 231]%N)
     = next_day (_parseDate (bytes [0; 0; 58; 230]%N)).
Proof.
  split; [reflexivity | split; [reflexivity | split; [reflexivity |]]].
  apply (X5_parseDate_next_day (bytes [0; 0; 58; 230]%N)
           (bytes [0; 0; 58; 231]%N));
    [reflexivity | reflexivity | vm_compute; discriminate | reflexivity].
Defined.

(** ** The shape of the results *)

Lemma switch_string_cases {A} (P : A -> Prop) (tag : string)
    (cases : list (list string * A)) (dflt : A) :
  P dflt -> Forall (fun c => P (snd c)) cases ->
  P (switch_string tag cases dflt).
Proof.
  intros Hd Hall. induction Hall as [| [labels body] rest Hbody _ IH]; simpl.
  - exact Hd.
  - destruct (existsb (String.eqb tag) labels); [exact Hbody | exact IH].
Qed.

Lemma switch_string_cons {A} (tag : string) (labels : list string) (body : A)
    (rest : list (list string * A)) (dflt : A) :
  switch_string tag ((labels, body) :: rest) dflt
  = if existsb (String.eqb tag) labels then body
    else switch_string tag rest dflt.
Proof. reflexivity. Qed.

Lemma switch_string_default {A} (tag : string)
    (cases : list (list string * A)) (dflt : A) :
  ~ In tag (concat (map fst cases)) ->
  switch_string tag cases dflt = dflt.
Proof.
  induction cases as [| [labels body] rest IH]; simpl; intros Hnot.
  - reflexivity.
  - rewrite in_app_iff in Hnot.
    destruct (existsb (String.eqb tag) labels) eqn:Hex.
    + exfalso. apply Hnot. left.
      apply existsb_exists in Hex. destruct Hex as (l & Hin & Heq).
      apply String.eqb_eq in Heq. subst l. exact Hin.
    + apply IH. intros Hin. apply Hnot. right. exact Hin.
Qed.

(** [parseString] returns the raw bytes or a string, never nil. *)
Lemma parseString_shape (E : Externals) (x : xSQLVAR) (raw : list byte)
    (charset : string) :
  parseString E x raw charset = VBytes raw
  \/ exists s, parseString E x raw charset = VString s.
Proof.
  unfold parseString.
  destruct (sqlsubtype x =? 1); [left; reflexivity |].
  destruct (sqlsubtype x =? 0); [| left; reflexivity].
  apply (switch_string_cases
           (fun v => v = VBytes raw \/ exists s, v = VString s)).
  - right. eexists. reflexivity.
  - repeat (constructor; [cbn [snd]; first [left; reflexivity | right; eexists; reflexivity] |]). constructor.
Qed.

Ltac type_cases x :=
  repeat (match goal with
          | |- context [sqltype x =? ?c] =>
              destruct (Z.eqb_spec (sqltype x) c)
          end; cbv iota).

Ltac in_cases :=
  unfold value_cases; simpl; repeat first [left; reflexivity | right].

Ltac case_out :=
  repeat match goal with
  | |- context [if ?b then _ else _] => destruct b
  | |- context [bind ?r _] => destruct r; cbn [bind]
  | |- context [match ?l with [] => _ | _ :: _ => _ end] => destruct l
  | |- context [read_float ?n ?mk ?raw] =>
      unfold read_float; destruct (binary_Read n raw)
  end.

Lemma value_nil_iff (E : Externals) (x : xSQLVAR)
    (raw : list byte) (timezone charset : string) :
  value E x raw timezone charset = Done (VNil, None)
  <-> ~ In (sqltype x) value_cases.
Proof.
  split.
  - intros Hv Hin. revert Hv. unfold value. cbv zeta beta. type_cases x.
    all: try (destruct (parseString_shape E x raw charset) as [-> | [s ->]]).
    all: case_out; try discriminate.
    intros _. unfold value_cases in Hin. simpl in Hin.
    intuition congruence.
  - intros Hnot. unfold value. cbv zeta beta. type_cases x.
    all: try reflexivity.
    all: exfalso; apply Hnot;
      match goal with H : sqltype _ = _ |- _ => rewrite H end; in_cases.
Qed.

(** X6.  [value] returns the nil value with a nil error exactly for the
    type codes that have no case in its switch; ARRAY and QUAD, which the
    catalog lists, are among them. *)
Theorem X6_nil_exactly_without_case (E : Externals) (x : xSQLVAR)
    (raw : list byte) (timezone charset : string) :
  (value E x raw timezone charset = Done (VNil, None)
   <-> ~ In (sqltype x) value_cases)
  /\ ~ In SQL_TYPE_ARRAY value_cases /\ ~ In SQL_TYPE_QUAD value_cases
  /\ is_Some (xsqlvarTypeLength !! SQL_TYPE_ARRAY)
  /\ is_Some (xsqlvarTypeLength !! SQL_TYPE_QUAD).
Proof.
  split; [apply value_nil_iff |].
  repeat split; try (vm_compute; eexists; reflexivity);
    unfold value_cases; simpl; intros H;
    repeat (destruct H as [H | H]; [discriminate H |]); exact H.
Qed.

(** An ARRAY column decodes to nil. *)
Lemma X6_nil_without_case_witness :
  value sample_externals (column SQL_TYPE_ARRAY 0 0)
    (bytes [0; 0; 0; 0; 0; 0; 0; 7]%N) EmptyString "UTF8"
  = Done (VNil, None).
Proof.
  apply (proj1 (X6_nil_exactly_without_case sample_externals
                  (column SQL_TYPE_ARRAY 0 0)
                  (bytes [0; 0; 0; 0; 0; 0; 0; 7]%N) EmptyString "UTF8")).
  unfold value_cases. simpl. intros H.
  repeat (destruct H as [H | H]; [discriminate H |]). exact H.
Defined.


Ltac clash :=
  exfalso;
  match goal with
  | H1 : sqltype _ = ?a, H2 : sqltype _ = ?b |- _ =>
      rewrite H1 in H2; vm_compute in H2; discriminate H2
  end.

Lemma value_error_iff (E : Externals) (x : xSQLVAR)
    (raw : list byte) (timezone charset : string) :
  (exists v e, value E x raw timezone charset = Done (v, Some e))
  <-> (sqltype x = SQL_TYPE_FLOAT /\ (length raw < 4)%nat)
      \/ (sqltype x = SQL_TYPE_DOUBLE /\ (length raw < 8)%nat).
Proof.
  split.
  - intros (v & e & Hv). revert Hv. unfold value. cbv zeta beta.
    type_cases x.
    all: unfold read_float, binary_Read.
    all: repeat match goal with
         | |- context [(length ?r <? ?n)%nat] =>
             destruct (Nat.ltb_spec (length r) n)
         end.
    all: case_out; intros Hv; try discriminate Hv.
    all: tauto.
  - intros [[Hty Hlen] | [Hty Hlen]]; apply Nat.ltb_lt in Hlen;
      unfold value; cbv zeta beta; type_cases x; try clash; try congruence;
      unfold read_float, binary_Read; rewrite Hlen;
      eexists; eexists; reflexivity.
Qed.

(** X7.  [value] returns an error exactly when a FLOAT buffer has fewer
    than 4 bytes or a DOUBLE buffer fewer than 8; every other decoding
    that returns has a nil error. *)
Theorem X7_error_exactly_short_float (E : Externals) (x : xSQLVAR)
    (raw : list byte) (timezone charset : string) :
  (exists v e, value E x raw timezone charset = Done (v, Some e))
  <-> (sqltype x = SQL_TYPE_FLOAT /\ (length raw < 4)%nat)
      \/ (sqltype x = SQL_TYPE_DOUBLE /\ (length raw < 8)%nat).
Proof. apply value_error_iff. Qed.

Lemma X7_error_witness :
  exists v e,
    value sample_externals (column SQL_TYPE_DOUBLE 0 0)
      (bytes [64; 9; 33; 251]%N) EmptyString "UTF8"
    = Done (v, Some e).
Proof.
  apply (X7_error_exactly_short_float sample_externals
           (column SQL_TYPE_DOUBLE 0 0) (bytes [64; 9; 33; 251]%N)).
  right. split; [reflexivity | simpl; lia].
Defined.

Section Dispatch.

Context (E : Externals) (x : xSQLVAR) (raw : list byte)
  (timezone charset : string).

Lemma value_DATE :
  sqltype x = SQL_TYPE_DATE ->
  value E x raw timezone charset
  = bind (parseDate E raw timezone) (fun t => Done (VTime t, @None error)).
Proof. intros Hty. unfold value. rewrite Hty. reflexivity. Qed.

Lemma value_TIME :
  sqltype x = SQL_TYPE_TIME ->
  value E x raw timezone charset
  = bind (parseTime E raw timezone) (fun t => Done (VTime t, @None error)).
Proof. intros Hty. unfold value. rewrite Hty. reflexivity. Qed.

Lemma value_TIMESTAMP :
  sqltype x = SQL_TYPE_TIMESTAMP ->
  value E x raw timezone charset
  = bind (parseTimestamp E raw timezone)
      (fun t => Done (VTime t, @None error)).
Proof. intros Hty. unfold value. rewrite Hty. reflexivity. Qed.

Lemma value_BOOLEAN :
  sqltype x = SQL_TYPE_BOOLEAN ->
  value E x raw timezone charset
  = match raw with
    | b :: _ => Done (VBool (negb (byte_val b =? 0)), None)
    | [] => Panicked IndexOutOfRange
    end.
Proof. intros Hty. unfold value. rewrite Hty. reflexivity. Qed.

Lemma value_INT128_any :
  sqltype x = SQL_TYPE_INT128 ->
  value E x raw timezone charset
  = bind (slice_to 8 raw) (fun hi =>
      bind (slice_from 8 raw) (fun lo =>
        Done (VBigInt ((Z.shiftl (bytes_to_bint64 hi) 64 + bytes_to_bint64 lo)
                       * int64_Pow10 E (sqlscale x)), None))).
Proof. intros Hty. unfold value. rewrite Hty. reflexivity. Qed.

End Dispatch.

Ltac open_temporal :=
  unfold parseDate, parseTime, parseTimestamp, parseTimeTz, parseTimestampTz,
    slice_to, slice_from, slice, time_Date;
  change (4 <=? 8)%nat with true;
  repeat (match goal with
          | |- context [(?n <=? length ?r)%nat] =>
              destruct (Nat.leb_spec n (length r))
          | |- context [session_location ?E ?tz] =>
              destruct (session_location E tz) eqn:?
          | |- context [_parseTimezone ?E ?z] =>
              destruct (_parseTimezone E z) as [[? |] | ?] eqn:?
          | |- context [_parseDate ?z] =>
              destruct (_parseDate z) as [[? ?] ?]
          | |- context [_parseTime ?z] =>
              destruct (_parseTime z) as [[[? ?] ?] ?]
          end; cbn [bind andb]; cbv beta iota).

Ltac pick_case :=
  repeat first
    [ solve [ split; [ solve [assumption | left; assumption | right; assumption]
                     | solve [assumption | reflexivity | left; lia
                             | right; assumption | right; reflexivity
                             | right; intros ? ?; congruence] ] ]
    | left; solve [ split; [ solve [assumption | left; assumption
                                   | right; assumption]
                           | solve [assumption | reflexivity | left; lia
                                   | right; assumption | right; reflexivity
                                   | right; intros ? ?; congruence] ] ]
    | right ].

Lemma value_panics_iff (E : Externals) (x : xSQLVAR)
    (raw : list byte) (timezone charset : string) :
  (exists p, value E x raw timezone charset = Panicked p)
  <-> (sqltype x = SQL_TYPE_INT128 /\ (length raw < 8)%nat)
      \/ (sqltype x = SQL_TYPE_BOOLEAN /\ raw = [])
      \/ ((sqltype x = SQL_TYPE_DATE \/ sqltype x = SQL_TYPE_TIME)
          /\ session_location E timezone = None)
      \/ (sqltype x = SQL_TYPE_TIMESTAMP
          /\ ((length raw < 4)%nat \/ session_location E timezone = None))
      \/ (sqltype x = SQL_TYPE_TIME_TZ
          /\ ((length raw < 4)%nat
              \/ forall l, _parseTimezone E (drop 4 raw) <> Done (Some l)))
      \/ (sqltype x = SQL_TYPE_TIMESTAMP_TZ
          /\ ((length raw < 8)%nat
              \/ forall l, _parseTimezone E (drop 8 raw) <> Done (Some l))).
Proof.
  split.
  - intros [p Hp]. revert Hp.
    match goal with |- _ -> ?G => set (cases := G) end.
    unfold value. cbv zeta beta. type_cases x.
    all: open_temporal.
    all: try (unfold read_float;
              match goal with
              | |- context [binary_Read ?n ?r] => destruct (binary_Read n r)
              end).
    all: try match goal with
         | |- context [match ?r with [] => _ | _ :: _ => _ end] => destruct r
         end.
    all: repeat match goal with
         | |- context [if ?b then _ else _] => destruct b
         end.
    all: intros Hp; try discriminate Hp; clear Hp; subst cases.
    all: pick_case.
  - intros [[Hty Hc] | [[Hty Hc] | [[[Hty | Hty] Hc] | [[Hty [Hc | Hc]]
           | [[Hty [Hc | Hc]] | [Hty [Hc | Hc]]]]]]].
    + rewrite (value_INT128_any _ _ _ _ _ Hty). unfold slice_to.
      destruct (Nat.leb_spec 8 (length raw)); [lia | eexists; reflexivity].
    + rewrite (value_BOOLEAN _ _ _ _ _ Hty), Hc. eexists; reflexivity.
    + rewrite (value_DATE _ _ _ _ _ Hty). unfold parseDate. rewrite Hc.
      destruct (_parseDate raw) as [[? ?] ?]. eexists; reflexivity.
    + rewrite (value_TIME _ _ _ _ _ Hty). unfold parseTime. rewrite Hc.
      destruct (_parseTime raw) as [[[? ?] ?] ?]. eexists; reflexivity.
    + rewrite (value_TIMESTAMP _ _ _ _ _ Hty). unfold parseTimestamp, slice_to.
      destruct (Nat.leb_spec 4 (length raw)); [lia | eexists; reflexivity].
    + rewrite (value_TIMESTAMP _ _ _ _ _ Hty). unfold parseTimestamp. rewrite Hc.
      open_temporal; eexists; reflexivity.
    + rewrite (value_TIME_TZ _ _ _ _ _ Hty). unfold parseTimeTz, slice_to.
      destruct (Nat.leb_spec 4 (length raw)); [lia | eexists; reflexivity].
    + rewrite (value_TIME_TZ _ _ _ _ _ Hty). unfold parseTimeTz.
      open_temporal; try (eexists; reflexivity);
        exfalso; eapply Hc; reflexivity.
    + rewrite (value_TIMESTAMP_TZ _ _ _ _ _ Hty). unfold parseTimestampTz.
      open_temporal; try (eexists; reflexivity); lia.
    + rewrite (value_TIMESTAMP_TZ _ _ _ _ _ Hty). unfold parseTimestampTz.
      open_temporal; try (eexists; reflexivity);
        exfalso; eapply Hc; reflexivity.
Qed.

Lemma catalog_length (x : xSQLVAR) (raw : list byte) (c n : Z) :
  sqltype x = c ->
  xsqlvarTypeLength !! c = Some n ->
  xsqlvarTypeLength !! sqltype x = Some (Z.of_nat (length raw)) ->
  Z.of_nat (length raw) = n.
Proof. intros -> Hc Hlen. rewrite Hc in Hlen. congruence. Qed.

(** X8.  The failures of the decoder that are panics, not errors.  An
    empty BOOLEAN buffer makes [value] panic.  On a buffer of the catalog's
    length, a DATE, TIME or TIMESTAMP value panics exactly when the session
    time zone cannot be loaded, and a TIME_TZ or TIMESTAMP_TZ value panics
    exactly when the lookup of the wire identifier does not return a name
    that loads. *)
Theorem X8_zone_failures_panic (E : Externals) (x : xSQLVAR)
    (raw : list byte) (timezone charset : string) :
  (sqltype x = SQL_TYPE_BOOLEAN -> raw = [] ->
   exists p, value E x raw timezone charset = Panicked p)
  /\ (xsqlvarTypeLength !! sqltype x = Some (Z.of_nat (length raw)) ->
      (sqltype x = SQL_TYPE_DATE \/ sqltype x = SQL_TYPE_TIME
       \/ sqltype x = SQL_TYPE_TIMESTAMP ->
       ((exists p, value E x raw timezone charset = Panicked p)
        <-> session_location E timezone = None))
      /\ (sqltype x = SQL_TYPE_TIME_TZ \/ sqltype x = SQL_TYPE_TIMESTAMP_TZ ->
          ((exists p, value E x raw timezone charset = Panicked p)
           <-> forall l,
                 _parseTimezone E (drop (length raw - 2) raw)
                 <> Done (Some l)))).
Proof.
  split; [| intros Hlen; split].
  - intros Hty ->. rewrite (value_BOOLEAN _ _ _ _ _ Hty). eexists. reflexivity.
  - intros Hty. rewrite value_panics_iff.
    assert (Hn : (4 <= length raw)%nat).
    { destruct Hty as [Hty | [Hty | Hty]];
        [ pose proof (catalog_length x raw _ 4 Hty eq_refl Hlen)
        | pose proof (catalog_length x raw _ 4 Hty eq_refl Hlen)
        | pose proof (catalog_length x raw _ 8 Hty eq_refl Hlen) ]; lia. }
    split.
    + intros [[H1 _] | [[H1 _] | [[_ Hc] | [[_ [Hc | Hc]] | [[H1 _]
             | [H1 _]]]]]];
        try exact Hc; try lia;
        exfalso; destruct Hty as [Hty | [Hty | Hty]]; clash.
    + intros Hc. destruct Hty as [Hty | [Hty | Hty]];
        [ right; right; left; split; [left; exact Hty | exact Hc]
        | right; right; left; split; [right; exact Hty | exact Hc]
        | right; right; right; left; split; [exact Hty | right; exact Hc] ].
  - intros Hty. rewrite value_panics_iff.
    destruct Hty as [Hty | Hty].
    + pose proof (catalog_length x raw _ 6 Hty eq_refl Hlen) as Hn.
      assert (Hl : length raw = 6%nat) by lia. rewrite Hl.
      change (6 - 2)%nat with 4%nat.
      split.
      * intros [[H1 _] | [[H1 _] | [[[H1 | H1] _] | [[H1 _] | [[_ [Hc | Hc]]
               | [H1 _]]]]]]; try exact Hc; try lia; clash.
      * intros Hc. right; right; right; right; left.
        split; [exact Hty | right; exact Hc].
    + pose proof (catalog_length x raw _ 10 Hty eq_refl Hlen) as Hn.
      assert (Hl : length raw = 10%nat) by lia. rewrite Hl.
      change (10 - 2)%nat with 8%nat.
      split.
      * intros [[H1 _] | [[H1 _] | [[[H1 | H1] _] | [[H1 _] | [[H1 _]
               | [_ [Hc | Hc]]]]]]]; try exact Hc; try lia; clash.
      * intros Hc. right; right; right; right; right.
        split; [exact Hty | right; exact Hc].
Qed.

(** A DATE value under a session time zone the host does not have. *)
Lemma X8_zone_failures_witness :
  exists p,
    value sample_externals (column SQL_TYPE_DATE 0 0) (bytes [0; 0; 201; 88]%N)
      "Mars/Olympus" "UTF8"
    = Panicked p.
Proof.
  apply (proj1 (proj2 (X8_zone_failures_panic sample_externals
                         (column SQL_TYPE_DATE 0 0) (bytes [0; 0; 201; 88]%N)
                         "Mars/Olympus" "UTF8") eq_refl)).
  - left. reflexivity.
  - reflexivity.
Defined.

(** ** Decoding at the catalog's length *)

Ltac io_length x Hty Hlen :=
  let H := fresh "Hio" in
  assert (H : ioLength x = default 0 (xsqlvarTypeLength !! sqltype x))
    by (unfold ioLength; rewrite Hty; reflexivity);
  rewrite H, Hty in Hlen; clear H;
  match type of Hlen with
  | _ = default 0 (xsqlvarTypeLength !! ?c) =>
      let n := eval vm_compute in (default 0 (xsqlvarTypeLength !! c)) in
      change (default 0 (xsqlvarTypeLength !! c)) with n in Hlen
  end.

(** X9.  For a type that has a case in [value] and a buffer of the length
    [ioLength] gives (any length for VARYING), [value] returns a value
    other than nil and a nil error, provided the session time zone loads
    (DATE, TIME, TIMESTAMP) and the wire zone loads (TIME_TZ,
    TIMESTAMP_TZ). *)
Theorem X9_decodes_at_ioLength (E : Externals) (x : xSQLVAR)
    (raw : list byte) (timezone charset : string) :
  In (sqltype x) value_cases ->
  sqltype x = SQL_TYPE_VARYING \/ Z.of_nat (length raw) = ioLength x ->
  (sqltype x = SQL_TYPE_DATE \/ sqltype x = SQL_TYPE_TIME
   \/ sqltype x = SQL_TYPE_TIMESTAMP ->
   session_location E timezone <> None) ->
  (sqltype x = SQL_TYPE_TIME_TZ \/ sqltype x = SQL_TYPE_TIMESTAMP_TZ ->
   exists l, _parseTimezone E (drop (length raw - 2) raw) = Done (Some l)) ->
  exists v, value E x raw timezone charset = Done (v, None) /\ v <> VNil.
Proof.
  intros Hin Hlen Hsess Hzone.
  destruct (value E x raw timezone charset) as [[v e] | p] eqn:Hv.
  - destruct e as [e |].
    + exfalso.
      assert (Herr : exists v e, value E x raw timezone charset = Done (v, Some e))
        by (exists v, e; exact Hv).
      apply value_error_iff in Herr.
      destruct Herr as [[Hty Hshort] | [Hty Hshort]];
        (destruct Hlen as [Hvar | Hlen]; [clash |]);
        io_length x Hty Hlen; lia.
    + exists v. split; [reflexivity |].
      intros ->. apply value_nil_iff in Hv. exact (Hv Hin).
  - exfalso.
    assert (Hp : exists p, value E x raw timezone charset = Panicked p)
      by (exists p; exact Hv).
    apply value_panics_iff in Hp.
    destruct Hp as [[Hty Hc] | [[Hty Hc] | [[[Hty | Hty] Hc] | [[Hty [Hc | Hc]]
           | [[Hty [Hc | Hc]] | [Hty [Hc | Hc]]]]]]];
      try (apply Hsess; [tauto | exact Hc]);
      (destruct Hlen as [Hvar | Hlen]; [clash |]);
      io_length x Hty Hlen; try (subst raw; simpl in Hlen); try lia.
    + assert (Hl : length raw = 6%nat) by lia. rewrite Hl in Hzone.
      destruct Hzone as [l Hz]; [tauto | exact (Hc l Hz)].
    + assert (Hl : length raw = 10%nat) by lia. rewrite Hl in Hzone.
      destruct Hzone as [l Hz]; [tauto | exact (Hc l Hz)].
Qed.

Lemma X9_decodes_at_ioLength_witness :
  exists v,
    value sample_externals (column SQL_TYPE_TIMESTAMP 0 0)
      (bytes [0; 0; 201; 88; 2; 37; 81; 0]%N) "UTC" "UTF8"
    = Done (v, None)
    /\ v <> VNil.
Proof.
  apply (X9_decodes_at_ioLength sample_externals
           (column SQL_TYPE_TIMESTAMP 0 0)
           (bytes [0; 0; 201; 88; 2; 37; 81; 0]%N) "UTC" "UTF8");
    [ unfold value_cases; simpl; tauto
    | right; reflexivity
    | intros _; vm_compute; discriminate
    | intros [H | H]; vm_compute in H; discriminate H ].
Defined.

(** ** What the decoder does not read *)

(** X10.  [value] reads only the type, the scale and the subtype of the
    descriptor: the declared length, the null flag and the names have no
    effect, so a TEXT value is neither cut nor padded to [sqllen]. *)
Theorem X10_only_type_scale_subtype (E : Externals) (x y : xSQLVAR)
    (raw : list byte) (timezone charset : string) :
  sqltype x = sqltype y ->
  sqlscale x = sqlscale y ->
  sqlsubtype x = sqlsubtype y ->
  value E x raw timezone charset = value E y raw timezone charset.
Proof.
  intros Hty Hscale Hsub. unfold value, parseString.
  rewrite Hty, Hscale, Hsub. reflexivity.
Qed.

Lemma X10_only_type_scale_subtype_witness :
  value sample_externals (column SQL_TYPE_TEXT 0 0) (bytes [104; 105]%N)
    EmptyString "UTF8"
  = value sample_externals
      {| sqltype := SQL_TYPE_TEXT; sqlscale := 0; sqlsubtype := 0;
         sqllen := 40; null_ok := true; fieldname := "NAME";
         relname := "PEOPLE"; ownname := "SYSDBA"; aliasname := "N" |}
      (bytes [104; 105]%N) EmptyString "UTF8".
Proof.
  apply (X10_only_type_scale_subtype sample_externals
           (column SQL_TYPE_TEXT 0 0)); reflexivity.
Defined.

(** X11.  The session time zone is read only for DATE, TIME and TIMESTAMP
    columns, and the session character set only for TEXT and VARYING
    columns. *)
Theorem X11_session_settings_scope (E : Externals) (x : xSQLVAR)
    (raw : list byte) (tz1 tz2 cs1 cs2 : string) :
  (sqltype x <> SQL_TYPE_DATE -> sqltype x <> SQL_TYPE_TIME ->
   sqltype x <> SQL_TYPE_TIMESTAMP ->
   value E x raw tz1 cs1 = value E x raw tz2 cs1)
  /\ (sqltype x <> SQL_TYPE_TEXT -> sqltype x <> SQL_TYPE_VARYING ->
      value E x raw tz1 cs1 = value E x raw tz1 cs2).
Proof.
  split.
  - intros Hd Ht Hts. unfold value. cbv zeta beta. type_cases x;
      solve [reflexivity | contradiction].
  - intros Htext Hvar. unfold value. cbv zeta beta. type_cases x;
      solve [reflexivity | contradiction].
Qed.

Lemma X11_session_settings_witness :
  value sample_externals (column SQL_TYPE_LONG 0 0) (bytes [0; 0; 0; 7]%N)
    "UTC" "UTF8"
  = value sample_externals (column SQL_TYPE_LONG 0 0) (bytes [0; 0; 0; 7]%N)
      "Europe/Dublin" "UTF8".
Proof.
  apply (proj1 (X11_session_settings_scope sample_externals
                  (column SQL_TYPE_LONG 0 0) (bytes [0; 0; 0; 7]%N)
                  "UTC" "Europe/Dublin" "UTF8" "WIN1252"));
    simpl; discriminate.
Defined.


(** ** The scan type and the values returned *)



(** X13.  For the temporal, floating, boolean and blob columns every value
    [value] returns has the type [scantype] reports.  For an INT128 column
    the value is a [*big.Int] while [scantype] reports [big.Int]. *)
Theorem X13_scantype_other_columns (E : Externals) (x : xSQLVAR)
    (raw : list byte) (timezone charset : string) (v : Value)
    (e : option error) :
  value E x raw timezone charset = Done (v, e) ->
  (In (sqltype x)
     [ SQL_TYPE_DATE; SQL_TYPE_TIME; SQL_TYPE_TIMESTAMP; SQL_TYPE_TIME_TZ;
       SQL_TYPE_TIMESTAMP_TZ; SQL_TYPE_FLOAT; SQL_TYPE_DOUBLE;
       SQL_TYPE_BOOLEAN; SQL_TYPE_BLOB ] ->
   dynamic_type v = scantype x)
  /\ (sqltype x = SQL_TYPE_INT128 ->
      dynamic_type v = TPtrBigInt /\ scantype x = TBigInt).
Proof.
  unfold value, scantype. cbv zeta beta. type_cases x.
  all: try (unfold read_float;
            match goal with
            | |- context [binary_Read ?n ?r] => destruct (binary_Read n r)
            end).
  all: repeat match goal with
       | |- context [bind ?r _] => destruct r; cbn [bind]
       | |- context [match ?l with [] => _ | _ :: _ => _ end] => destruct l
       end.
  all: intros Hv; try discriminate Hv.
  all: split; [intros Hin | intros Hty; try clash; try congruence].
  all: try (injection Hv as <- _; reflexivity).
  all: try (injection Hv as <- _; split; reflexivity).
  all: exfalso; simpl in Hin;
    repeat (destruct Hin as [Hin | Hin]; [try congruence; try clash |]);
    try exact Hin.
  all: try (symmetry in Hin; clash).
Qed.

Lemma X13_scantype_other_witness :
  (In (sqltype (column SQL_TYPE_BOOLEAN 0 0))
     [ SQL_TYPE_DATE; SQL_TYPE_TIME; SQL_TYPE_TIMESTAMP; SQL_TYPE_TIME_TZ;
       SQL_TYPE_TIMESTAMP_TZ; SQL_TYPE_FLOAT; SQL_TYPE_DOUBLE;
       SQL_TYPE_BOOLEAN; SQL_TYPE_BLOB ] ->
   dynamic_type (VBool true) = scantype (column SQL_TYPE_BOOLEAN 0 0))
  /\ (sqltype (column SQL_TYPE_BOOLEAN 0 0) = SQL_TYPE_INT128 ->
      dynamic_type (VBool true) = TPtrBigInt
      /\ scantype (column SQL_TYPE_BOOLEAN 0 0) = TBigInt).
Proof.
  apply (X13_scantype_other_columns sample_externals
           (column SQL_TYPE_BOOLEAN 0 0) (bytes [1]%N) EmptyString "UTF8"
           (VBool true) None).
  reflexivity.
Defined.

(** ** Wide and narrow integers *)

Lemma be_uint_app (a b : list byte) :
  be_uint (a ++ b) = be_uint a * 256 ^ Z.of_nat (length b) + be_uint b.
Proof.
  induction b as [| c b IH] using rev_ind.
  - rewrite app_nil_r. change (be_uint []) with 0. simpl length.
    change (Z.of_nat 0) with 0. rewrite Z.pow_0_r. lia.
  - rewrite app_assoc, !be_uint_snoc, IH, length_app. simpl length.
    replace (Z.of_nat (length b + 1)) with (Z.succ (Z.of_nat (length b))) by lia.
    rewrite Z.pow_succ_r by lia. lia.
Qed.

Lemma be_uint_split (n : nat) (raw : list byte) :
  be_uint raw
  = be_uint (take n raw) * 256 ^ Z.of_nat (length (drop n raw))
    + be_uint (drop n raw).
Proof. rewrite <- be_uint_app, take_drop. reflexivity. Qed.

Lemma bytes_to_bint64_8 (b : list byte) :
  length b = 8%nat ->
  bytes_to_bint64 b = GoInt.to_signed 64 (be_uint b)
  /\ 0 <= be_uint b < 2 ^ 64.
Proof.
  intros Hlen. split.
  - unfold bytes_to_bint64, bytes_to_bint, binary_Read. rewrite Hlen. simpl.
    rewrite firstn_all2 by lia. reflexivity.
  - pose proof (be_uint_range b) as H. rewrite Hlen in H. exact H.
Qed.

(** X14.  For an INT128 column of scale 0 and a 16-byte buffer, [value]
    returns the two's complement reading of the buffer exactly when the top
    bit of the low half is clear; when it is set, the result is that
    reading less 2^64, because the low half is added as a signed number. *)
Theorem X14_int128_low_half_signed (E : Externals) (x : xSQLVAR)
    (raw : list byte) (timezone charset : string) :
  sqltype x = SQL_TYPE_INT128 ->
  sqlscale x = 0 ->
  length raw = 16%nat ->
  value E x raw timezone charset
  = Done (VBigInt (GoInt.to_signed 128 (be_uint raw)
                   - (if be_uint (drop 8 raw) <? 2 ^ 63 then 0 else 2 ^ 64)),
          None).
Proof.
  intros Hty Hscale Hlen.
  rewrite (value_INT128 E x raw timezone charset Hty Hlen), Hscale.
  assert (Hhi : length (take 8 raw) = 8%nat) by (rewrite length_take; lia).
  assert (Hlo : length (drop 8 raw) = 8%nat) by (rewrite length_drop; lia).
  destruct (bytes_to_bint64_8 _ Hhi) as [-> Hh].
  destruct (bytes_to_bint64_8 _ Hlo) as [-> Hl].
  rewrite (be_uint_split 8 raw), Hlo.
  set (H := be_uint (take 8 raw)) in *. set (L := be_uint (drop 8 raw)) in *.
  rewrite Z.shiftl_mul_pow2 by lia.
  rewrite (int64_Pow10_exact E 0) by lia.
  change (256 ^ Z.of_nat 8) with (2 ^ 64).
  unfold GoInt.to_signed.
  change (2 ^ (64 - 1)) with 9223372036854775808 in *.
  change (2 ^ (128 - 1)) with 170141183460469231731687303715884105728.
  change (2 ^ 128) with 340282366920938463463374607431768211456.
  change (2 ^ 64) with 18446744073709551616 in *.
  change (2 ^ 63) with 9223372036854775808.
  change (10 ^ 0) with 1.
  do 2 f_equal.
  destruct (Z.ltb_spec H 9223372036854775808);
    destruct (Z.ltb_spec L 9223372036854775808);
    destruct (Z.ltb_spec (H * 18446744073709551616 + L)
                170141183460469231731687303715884105728);
    try lia; f_equal; lia.
Qed.

(** The buffer of 2^64 - 1 decodes to -1. *)
Lemma X14_int128_low_half_witness :
  GoInt.to_signed 128
    (be_uint (bytes [0; 0; 0; 0; 0; 0; 0; 0;
                     255; 255; 255; 255; 255; 255; 255; 255]%N))
  = 18446744073709551615
  /\ value sample_externals (column SQL_TYPE_INT128 0 0)
       (bytes [0; 0; 0; 0; 0; 0; 0; 0;
               255; 255; 255; 255; 255; 255; 255; 255]%N) EmptyString "UTF8"
     = Done (VBigInt (-1), None).
Proof.
  split; [reflexivity |].
  apply (X14_int128_low_half_signed sample_externals
           (column SQL_TYPE_INT128 0 0)
           (bytes [0; 0; 0; 0; 0; 0; 0; 0;
                   255; 255; 255; 255; 255; 255; 255; 255]%N));
    reflexivity.
Defined.

(** X15.  For a SHORT column of scale 0 and a 4-byte buffer, [value]
    returns the two's complement reading of the last two bytes: the first
    two bytes of the buffer have no effect. *)
Theorem X15_short_reads_low_bytes (E : Externals) (x : xSQLVAR)
    (raw : list byte) (timezone charset : string) :
  sqltype x = SQL_TYPE_SHORT ->
  sqlscale x = 0 ->
  length raw = 4%nat ->
  value E x raw timezone charset
  = Done (VInt16 (GoInt.to_signed 16 (be_uint (drop 2 raw))), None).
Proof.
  intros Hty Hscale Hlen. unfold value. rewrite Hty, Hscale.
  change (Done (VInt16 (GoInt.wrap 16 (bytes_to_bint32 raw)), @None error)
          = Done (VInt16 (GoInt.to_signed 16 (be_uint (drop 2 raw))), None)).
  do 3 f_equal.
  destruct (bytes_to_bint32_4 raw Hlen) as [-> _].
  assert (Hhi : length (take 2 raw) = 2%nat) by (rewrite length_take; lia).
  assert (Hlo : length (drop 2 raw) = 2%nat) by (rewrite length_drop; lia).
  pose proof (be_uint_range (take 2 raw)) as Hh. rewrite Hhi in Hh.
  pose proof (be_uint_range (drop 2 raw)) as Hl. rewrite Hlo in Hl.
  rewrite (be_uint_split 2 raw), Hlo.
  set (H := be_uint (take 2 raw)) in *. set (L := be_uint (drop 2 raw)) in *.
  change (256 ^ Z.of_nat 2) with 65536 in *.
  unfold GoInt.wrap. f_equal.
  change (2 ^ 16) with 65536.
  unfold GoInt.to_signed.
  change (2 ^ (32 - 1)) with 2147483648. change (2 ^ 32) with 4294967296.
  destruct (Z.ltb_spec (H * 65536 + L) 2147483648);
    symmetry; [apply Z.mod_unique with (q := H)
              | apply Z.mod_unique with (q := H - 65536)]; lia.
Qed.

Lemma X15_short_reads_low_bytes_witness :
  value sample_externals (column SQL_TYPE_SHORT 0 0)
    (bytes [18; 52; 255; 254]%N) EmptyString "UTF8"
  = Done (VInt16 (-2), None).
Proof.
  apply (X15_short_reads_low_bytes sample_externals
           (column SQL_TYPE_SHORT 0 0) (bytes [18; 52; 255; 254]%N));
    reflexivity.
Defined.

(** ** Text *)

Section TextShape.

Context (E : Externals) (x : xSQLVAR) (raw : list byte).

(** With subtype 0 and a charset other than OCTETS the result is a
    string. *)
Lemma parseString_text_is_string (charset : string) :
  sqlsubtype x = 0 ->
  charset <> "OCTETS" ->
  exists s, parseString E x raw charset = VString s.
Proof.
  intros Hsub Hcs. unfold parseString. rewrite Hsub.
  change (0 =? 1) with false. change (0 =? 0) with true. cbv iota.
  apply String.eqb_neq in Hcs.
  rewrite switch_string_cons. cbn [existsb]. rewrite Hcs. cbn [orb].
  apply (switch_string_cases (fun v => exists s, v = VString s)).
  - eexists. reflexivity.
  - repeat (constructor; [cbn [snd]; eexists; reflexivity |]). constructor.
Qed.

(** X16.  With subtype 0, a charset name that has no case in
    [parseString] is treated like UTF8: the result is the string of the
    input bytes, unchanged. *)
Theorem X16_unknown_charset_as_utf8 (charset : string) :
  sqlsubtype x = 0 ->
  ~ In charset charset_cases ->
  parseString E x raw charset = VString raw
  /\ parseString E x raw charset = parseString E x raw "UTF8".
Proof.
  intros Hsub Hnot. unfold parseString. rewrite Hsub.
  change (0 =? 1) with false. change (0 =? 0) with true. cbv iota.
  split.
  - apply switch_string_default. exact Hnot.
  - rewrite switch_string_default by exact Hnot. reflexivity.
Qed.

End TextShape.

Lemma X16_unknown_charset_witness :
  parseString sample_externals (column SQL_TYPE_TEXT 0 0)
    (bytes [195; 169]%N) "LATIN1"
  = VString (bytes [195; 169]%N)
  /\ parseString sample_externals (column SQL_TYPE_TEXT 0 0)
       (bytes [195; 169]%N) "LATIN1"
     = parseString sample_externals (column SQL_TYPE_TEXT 0 0)
         (bytes [195; 169]%N) "UTF8".
Proof.
  apply (X16_unknown_charset_as_utf8 sample_externals
           (column SQL_TYPE_TEXT 0 0) (bytes [195; 169]%N) "LATIN1");
    [reflexivity |].
  unfold charset_cases. simpl. intros H.
  repeat (destruct H as [H | H]; [discriminate H |]). exact H.
Defined.

(** X17.  For a TEXT or VARYING column [value] always returns, without an
    error.  The value is a string, as [scantype] reports, exactly when the
    subtype is 0 and the charset is not OCTETS; in every other case it is
    the raw byte slice. *)
Theorem X17_text_string_or_bytes (E : Externals) (x : xSQLVAR)
    (raw : list byte) (timezone charset : string) :
  sqltype x = SQL_TYPE_TEXT \/ sqltype x = SQL_TYPE_VARYING ->
  exists v,
    value E x raw timezone charset = Done (v, None)
    /\ (dynamic_type v = scantype x
        <-> sqlsubtype x = 0 /\ charset <> "OCTETS")
    /\ (dynamic_type v <> scantype x -> v = VBytes raw).
Proof.
  intros Hty.
  assert (Hscan : scantype x = TString)
    by (unfold scantype; destruct Hty as [-> | ->]; reflexivity).
  assert (Hval : value E x raw timezone charset
                 = Done (parseString E x raw charset, None)).
  { unfold value, parseString.
    destruct Hty as [-> | ->]; cbv zeta beta;
      [ change (SQL_TYPE_TEXT =? SQL_TYPE_TEXT) with true
      | change (SQL_TYPE_VARYING =? SQL_TYPE_TEXT) with false;
        change (SQL_TYPE_VARYING =? SQL_TYPE_VARYING) with true ];
      cbv iota; destruct (sqlsubtype x =? 1); reflexivity. }
  rewrite Hval, Hscan. eexists. split; [reflexivity |].
  destruct (Z.eq_dec (sqlsubtype x) 0) as [Hsub | Hsub].
  - destruct (String.eqb_spec charset "OCTETS") as [Hcs | Hcs].
    + subst charset. unfold parseString. rewrite Hsub. cbn.
      split; [split; [discriminate | intros [_ Hne]; contradiction] | reflexivity].
    + destruct (parseString_text_is_string E x raw charset Hsub Hcs) as [s ->].
      cbn. split; [split; [intros _; split; assumption | reflexivity]
                  | intros Hne; contradiction].
  - assert (Hraw : parseString E x raw charset = VBytes raw).
    { unfold parseString. destruct (sqlsubtype x =? 1); [reflexivity |].
      destruct (Z.eqb_spec (sqlsubtype x) 0); [contradiction | reflexivity]. }
    rewrite Hraw. cbn.
    split; [split; [discriminate | intros [H0 _]; contradiction] | reflexivity].
Qed.

Lemma X17_text_string_or_bytes_witness :
  exists v,
    value sample_externals (column SQL_TYPE_TEXT 0 0) (bytes [104; 105]%N)
      EmptyString "OCTETS"
    = Done (v, None)
    /\ (dynamic_type v = scantype (column SQL_TYPE_TEXT 0 0)
        <-> sqlsubtype (column SQL_TYPE_TEXT 0 0) = 0 /\ "OCTETS" <> "OCTETS")
    /\ (dynamic_type v <> scantype (column SQL_TYPE_TEXT 0 0) ->
        v = VBytes (bytes [104; 105]%N)).
Proof.
  apply (X17_text_string_or_bytes sample_externals (column SQL_TYPE_TEXT 0 0)
           (bytes [104; 105]%N) EmptyString "OCTETS").
  left. reflexivity.
Defined.

(** ** Zoned and combined times *)






(** ** Type codes outside the catalog *)

(** X20.  For a type code that is not in the catalog every accessor of
    the descriptor returns its zero value: [ioLength] and [displayLength]
    are 0, [typename] is the empty string, [scantype] is the nil type and
    [hasPrecisionScale] is false. *)
Theorem X20_uncatalogued_type_zero_values (x : xSQLVAR) :
  xsqlvarTypeLength !! sqltype x = None ->
  ioLength x = 0 /\ displayLength x = 0 /\ typename x = EmptyString
  /\ scantype x = TNil /\ hasPrecisionScale x = false.
Proof.
  intros Hcat.
  assert (Hkeys := Hcat). unfold xsqlvarTypeLength in Hkeys.
  apply not_elem_of_list_to_map in Hkeys.
  assert (Hdisp : xsqlvarTypeDisplayLength !! sqltype x = None)
    by (unfold xsqlvarTypeDisplayLength; apply not_elem_of_list_to_map;
        exact Hkeys).
  assert (Hname : xsqlvarTypeName !! sqltype x = None)
    by (unfold xsqlvarTypeName; apply not_elem_of_list_to_map; exact Hkeys).
  unfold ioLength, displayLength, typename, scantype, hasPrecisionScale.
  rewrite Hdisp, Hname.
  by_catalog Hcat. rewrite Hcat. cbn [orb andb].
  repeat split; reflexivity.
Qed.

Lemma X20_uncatalogued_type_witness :
  ioLength (column SQL_TYPE_D_FLOAT (-2) 0) = 0
  /\ displayLength (column SQL_TYPE_D_FLOAT (-2) 0) = 0
  /\ typename (column SQL_TYPE_D_FLOAT (-2) 0) = EmptyString
  /\ scantype (column SQL_TYPE_D_FLOAT (-2) 0) = TNil
  /\ hasPrecisionScale (column SQL_TYPE_D_FLOAT (-2) 0) = false.
Proof.
  apply (X20_uncatalogued_type_zero_values (column SQL_TYPE_D_FLOAT (-2) 0)).
  vm_compute. reflexivity.
Defined.
